(** * conjure-up provider models: a shallow embedding of
    [conjureup/models/provider.py] and [conjureup/consts.py]

  The Python classes are modelled as records, the async methods as
  computations in a state-and-exception monad over an explicit world
  (process invocations, API calls, log lines), and the Python library
  calls the providers rely on ([str] methods, [pathlib], [urllib.parse])
  as executable functions on strings. *)

From Stdlib Require Import ZArith Ascii Lia.
From stdpp Require Import base option list strings gmap sorting.

Local Open Scope Z_scope.
Local Open Scope stdpp_scope.

(** ** Python [str] methods used by the providers *)
Module Py.

(** [s.startswith(p)] *)
Fixpoint startswith (p s : string) : bool :=
  match p, s with
  | EmptyString, _ => true
  | String a p', String b s' => Ascii.eqb a b && startswith p' s'
  | String _ _, EmptyString => false
  end.

(** [sub in s] *)
Fixpoint contains (sub s : string) : bool :=
  startswith sub s ||
  match s with
  | EmptyString => false
  | String _ s' => contains sub s'
  end.

(** [c in s] for a single character *)
Fixpoint has_char (c : ascii) (s : string) : bool :=
  match s with
  | EmptyString => false
  | String a s' => Ascii.eqb a c || has_char c s'
  end.

(** [s.split(c)] for a one-character separator: never empty. *)
Fixpoint split (c : ascii) (s : string) : list string :=
  match s with
  | EmptyString => [EmptyString]
  | String a s' =>
      if Ascii.eqb a c then EmptyString :: split c s'
      else match split c s' with
           | h :: t => String a h :: t
           | [] => [String a EmptyString]
           end
  end.

(** [s.split(c, 1)] when [c] occurs in [s]: the text before the first
    [c] and the text after it. *)
Fixpoint split_first (c : ascii) (s : string) : option (string * string) :=
  match s with
  | EmptyString => None
  | String a s' =>
      if Ascii.eqb a c then Some (EmptyString, s')
      else match split_first c s' with
           | Some (h, t) => Some (String a h, t)
           | None => None
           end
  end.

(** [sep.join(l)] *)
Fixpoint join (sep : string) (l : list string) : string :=
  match l with
  | [] => EmptyString
  | [x] => x
  | x :: l' => x +:+ sep +:+ join sep l'
  end.

(** [s.lstrip(c)] for a one-character set *)
Fixpoint lstrip (c : ascii) (s : string) : string :=
  match s with
  | String a s' => if Ascii.eqb a c then lstrip c s' else s
  | EmptyString => EmptyString
  end.

(** [s.replace(a, b)] for one-character [a] and [b] *)
Fixpoint replace (a b : ascii) (s : string) : string :=
  match s with
  | EmptyString => EmptyString
  | String c s' => String (if Ascii.eqb c a then b else c) (replace a b s')
  end.

Definition is_upper (c : ascii) : bool :=
  let n := nat_of_ascii c in (65 <=? n)%nat && (n <=? 90)%nat.
Definition is_lower (c : ascii) : bool :=
  let n := nat_of_ascii c in (97 <=? n)%nat && (n <=? 122)%nat.
Definition is_digit (c : ascii) : bool :=
  let n := nat_of_ascii c in (48 <=? n)%nat && (n <=? 57)%nat.

Definition lower_char (c : ascii) : ascii :=
  if is_upper c then ascii_of_nat (nat_of_ascii c + 32) else c.
Definition upper_char (c : ascii) : ascii :=
  if is_lower c then ascii_of_nat (nat_of_ascii c - 32) else c.

Fixpoint map_chars (f : ascii -> ascii) (s : string) : string :=
  match s with
  | EmptyString => EmptyString
  | String c s' => String (f c) (map_chars f s')
  end.

(** [s.lower()] and [s.upper()] on the ASCII letters; the model's strings
    are byte strings, other bytes are left alone. *)
Definition lower : string -> string := map_chars lower_char.
Definition upper : string -> string := map_chars upper_char.

Fixpoint all_chars (f : ascii -> bool) (s : string) : bool :=
  match s with
  | EmptyString => true
  | String c s' => f c && all_chars f s'
  end.

(** [s.rfind(c)]: index of the last [c], if any *)
Fixpoint rfind (c : ascii) (s : string) : option nat :=
  match s with
  | EmptyString => None
  | String a s' =>
      match rfind c s' with
      | Some i => Some (S i)
      | None => if Ascii.eqb a c then Some 0%nat else None
      end
  end.

(** [s[:i]] *)
Definition take (i : nat) (s : string) : string := String.substring 0 i s.

(** [l[-1]] of a list of strings, [''] standing in for the empty list
    (the callers only index non-empty lists) *)
Definition last_str (l : list string) : string := List.last l EmptyString.

(** [v or ''] for an optional string *)
Definition or_empty (v : option string) : string :=
  match v with
  | Some s => s
  | None => EmptyString
  end.

(** The newline character *)
Definition nl : string := String (ascii_of_nat 10) EmptyString.

(** Truthiness of an optional string: [None] and [''] are falsy. *)
Definition truthy (v : option string) : bool :=
  match v with
  | Some (String _ _) => true
  | _ => false
  end.

End Py.

(** ** [pathlib] on POSIX: the operations [Localhost] uses *)
Module Pathlib.

(** A pure POSIX path after parsing: the root (['' ], ['/'] or ['//']) and
    the parts; when the root is not empty it is also the first part. *)
Record PurePath := mkPath { root : string; parts : list string }.

(** [_PosixFlavour.splitroot] *)
Definition splitroot (part : string) : string * string :=
  match part with
  | String "/" _ =>
      let stripped := Py.lstrip "/" part in
      if Nat.eqb (String.length part - String.length stripped) 2
      then ("//", stripped) else ("/", stripped)
  | _ => (EmptyString, part)
  end.

Definition keep_part (x : string) : bool :=
  negb (String.eqb x "") && negb (String.eqb x ".").

(** [parse_parts] on a single argument *)
Definition parse (part : string) : PurePath :=
  let '(r, rel) := splitroot part in
  let parsed := filter (fun x => keep_part x = true) (Py.split "/" rel) in
  if String.eqb r "" then mkPath r parsed else mkPath r (r :: parsed).

(** [join_parsed_parts] with no drive: an anchored right operand replaces
    the left one. *)
Definition joinpath (p q : PurePath) : PurePath :=
  if String.eqb (root q) "" then mkPath (root p) (parts p ++ parts q)
  else q.

(** [str(path)] *)
Definition to_str (p : PurePath) : string :=
  let s := if String.eqb (root p) ""
           then Py.join "/" (parts p)
           else root p +:+ Py.join "/" (tail (parts p)) in
  if String.eqb s "" then "." else s.

(** [path.name] *)
Definition name (p : PurePath) : string :=
  let anchor := if String.eqb (root p) "" then 0%nat else 1%nat in
  if Nat.eqb (length (parts p)) anchor then EmptyString
  else Py.last_str (parts p).

(** [path.stem]: the name without its last suffix *)
Definition stem (p : PurePath) : string :=
  let n := name p in
  match Py.rfind "." n with
  | Some i =>
      if (0 <? i)%nat && (i <? String.length n - 1)%nat
      then Py.take i n else n
  | None => n
  end.

End Pathlib.


(** ** Exceptions and results *)

(** The exceptions the providers raise, catch or let through. *)
Inductive exn : Type :=
| ValueError (msg : string)
| TypeError
| AttributeError
| KeyError (key : string)
| IndexError
| LookupError (msg : string)
| FileNotFoundError (msg : string)
| CalledProcessError (returncode : Z) (cmd : list (option string))
    (output stderr : string)
| JSONDecodeError
| LocalhostError (cause : exn)
| LocalhostJSONError (msg : string)
| SchemaError (cloud : string)
| SchemaErrorUnknownCloud (cloud : string)
| VSphereInvalidLogin
| NotImplementedError
| OtherError (name : string).

(** The outcome of a call: a value, or a raised exception. *)
Inductive result (A : Type) : Type :=
| Ok (a : A)
| Raise (e : exn).
Arguments Ok {A} a.
Arguments Raise {A} e.

(** Whether a call returned, and the value of a call that did. *)
Definition returns {A} (r : result A) : bool :=
  match r with
  | Ok _ => true
  | Raise _ => false
  end.

Definition returned {A} (r : result A) : returns r = true -> A :=
  match r with
  | Ok a => fun _ => a
  | Raise _ => fun H => match Bool.diff_false_true H with end
  end.

(** ** [urllib.parse]: [urlparse], [geturl] and [urljoin]

    The functions follow CPython's [Lib/urllib/parse.py].  Two things are
    left out: the shortcut older releases take for the scheme ['http'] (it
    computes what the general case computes) and the stripping of control
    characters and the Unicode checks of the network location that newer
    releases add. *)
Module Urllib.

Record ParseResult := mkParse {
  scheme : string;
  netloc : string;
  path : string;
  params : string;
  query : string;
  fragment : string }.

Definition uses_relative : list string :=
  [""; "ftp"; "http"; "gopher"; "nntp"; "imap"; "wais"; "file"; "https";
   "shttp"; "mms"; "prospero"; "rtsp"; "rtspu"; "sftp"; "svn"; "svn+ssh";
   "ws"; "wss"].

Definition uses_netloc : list string :=
  [""; "ftp"; "http"; "gopher"; "nntp"; "telnet"; "imap"; "wais"; "file";
   "mms"; "https"; "shttp"; "snews"; "prospero"; "rtsp"; "rtspu"; "rsync";
   "svn"; "svn+ssh"; "sftp"; "nfs"; "git"; "git+ssh"; "ws"; "wss"].

Definition uses_params : list string :=
  [""; "ftp"; "hdl"; "prospero"; "http"; "imap"; "https"; "shttp"; "rtsp";
   "rtspu"; "sip"; "sips"; "mms"; "sftp"; "tel"].

Definition in_list (s : string) (l : list string) : bool :=
  existsb (String.eqb s) l.

(** [c in scheme_chars] *)
Definition scheme_char (c : ascii) : bool :=
  Py.is_lower c || Py.is_upper c || Py.is_digit c
  || Ascii.eqb c "+" || Ascii.eqb c "-" || Ascii.eqb c ".".

Definition is_alpha (c : ascii) : bool := Py.is_lower c || Py.is_upper c.

(** The scheme test of [urlsplit]: a colon at a positive index, a letter
    first, scheme characters before the colon. *)
Definition split_scheme (url default : string) : string * string :=
  match Py.split_first ":" url with
  | Some (String c pre, rest) =>
      if is_alpha c && Py.all_chars scheme_char pre
      then (Py.lower (String c pre), rest)
      else (default, url)
  | _ => (default, url)
  end.

Definition netloc_delim (c : ascii) : bool :=
  Ascii.eqb c "/" || Ascii.eqb c "?" || Ascii.eqb c "#".

(** [_splitnetloc(url, 2)] once the two slashes are dropped: the text up to
    the first of ['/'], ['?'], ['#'], and the rest from that delimiter on. *)
Fixpoint splitnetloc (s : string) : string * string :=
  match s with
  | EmptyString => (EmptyString, EmptyString)
  | String c s' =>
      if netloc_delim c then (EmptyString, s)
      else let '(n, r) := splitnetloc s' in (String c n, r)
  end.

Definition brackets_unbalanced (nl : string) : bool :=
  (Py.has_char "[" nl && negb (Py.has_char "]" nl))
  || (Py.has_char "]" nl && negb (Py.has_char "[" nl)).

(** [url.split(c, 1)] guarded by [c in url] *)
Definition cut (c : ascii) (url : string) : string * string :=
  match Py.split_first c url with
  | Some (a, b) => (a, b)
  | None => (url, EmptyString)
  end.

(** [urlsplit(url, scheme)]; the result carries no params yet. *)
Definition urlsplit (url default : string) : result ParseResult :=
  let '(sch, url1) := split_scheme url default in
  let nl_rest :=
    match url1 with
    | String "/" (String "/" after) => splitnetloc after
    | _ => (EmptyString, url1)
    end in
  let '(nl, url2) := nl_rest in
  if brackets_unbalanced nl then Raise (ValueError "Invalid IPv6 URL")
  else
    let '(url3, frag) := cut "#" url2 in
    let '(url4, q) := cut "?" url3 in
    Ok (mkParse sch nl url4 EmptyString q frag).

(** The text up to and including the last ['/'], and the text after it. *)
Fixpoint split_last_slash (s : string) : option (string * string) :=
  match s with
  | EmptyString => None
  | String c s' =>
      match split_last_slash s' with
      | Some (d, l) => Some (String c d, l)
      | None => if Ascii.eqb c "/" then Some (String c EmptyString, s')
                else None
      end
  end.

(** [_splitparams] *)
Definition splitparams (url : string) : string * string :=
  match split_last_slash url with
  | Some (dir, last) =>
      match Py.split_first ";" last with
      | Some (a, b) => (dir +:+ a, b)
      | None => (url, EmptyString)
      end
  | None => cut ";" url
  end.

(** [urlparse(url, scheme)] *)
Definition urlparse (url default : string) : result ParseResult :=
  match urlsplit url default with
  | Raise e => Raise e
  | Ok r =>
      if in_list (scheme r) uses_params && Py.has_char ";" (path r)
      then let '(p, ps) := splitparams (path r) in
           Ok (mkParse (scheme r) (netloc r) p ps (query r) (fragment r))
      else Ok r
  end.

Definition nonempty (s : string) : bool := negb (String.eqb s "").

(** [urlunsplit] *)
Definition urlunsplit (sch nl url q frag : string) : string :=
  let url :=
    if nonempty nl
       || (nonempty sch && in_list sch uses_netloc
           && negb (Py.startswith "//" url))
    then "//" +:+ nl +:+
         (if nonempty url && negb (Py.startswith "/" url)
          then "/" +:+ url else url)
    else url in
  let url := if nonempty sch then sch +:+ ":" +:+ url else url in
  let url := if nonempty q then url +:+ "?" +:+ q else url in
  if nonempty frag then url +:+ "#" +:+ frag else url.

(** [urlunparse] *)
Definition urlunparse (sch nl url ps q frag : string) : string :=
  urlunsplit sch nl (if nonempty ps then url +:+ ";" +:+ ps else url) q frag.

(** [ParseResult.geturl()] *)
Definition geturl (r : ParseResult) : string :=
  urlunparse (scheme r) (netloc r) (path r) (params r) (query r) (fragment r).

(** [segments[1:-1] = filter(None, segments[1:-1])] *)
Definition filter_middle (segments : list string) : list string :=
  match segments with
  | x :: (_ :: _) as t =>
      x :: filter (fun s => nonempty s = true) (removelast t)
        ++ [Py.last_str t]
  | _ => segments
  end.

(** The loop of [urljoin] that resolves ['.'] and ['..'] segments. *)
Definition resolve (segments : list string) : list string :=
  fold_left (fun resolved seg =>
               if String.eqb seg ".." then removelast resolved
               else if String.eqb seg "." then resolved
               else resolved ++ [seg]) segments [].

(** [urljoin(base, url)] *)
Definition urljoin (base url : string) : result string :=
  if negb (nonempty base) then Ok url
  else if negb (nonempty url) then Ok base
  else
    match urlparse base EmptyString with
    | Raise e => Raise e
    | Ok b =>
        match urlparse url (scheme b) with
        | Raise e => Raise e
        | Ok u =>
            if negb (String.eqb (scheme u) (scheme b))
               || negb (in_list (scheme u) uses_relative)
            then Ok url
            else if in_list (scheme u) uses_netloc && nonempty (netloc u)
            then Ok (geturl u)
            else
              let nl := if in_list (scheme u) uses_netloc
                        then netloc b else netloc u in
              if negb (nonempty (path u)) && negb (nonempty (params u))
              then Ok (urlunparse (scheme u) nl (path b) (params b)
                         (if nonempty (query u) then query u else query b)
                         (fragment u))
              else
                let base_parts := Py.split "/" (path b) in
                let base_parts :=
                  if nonempty (Py.last_str base_parts)
                  then removelast base_parts else base_parts in
                let segments :=
                  if Py.startswith "/" (path u) then Py.split "/" (path u)
                  else filter_middle (base_parts ++ Py.split "/" (path u)) in
                let resolved := resolve segments in
                let resolved :=
                  if String.eqb (Py.last_str segments) "."
                     || String.eqb (Py.last_str segments) ".."
                  then resolved ++ [EmptyString] else resolved in
                let joined := Py.join "/" resolved in
                Ok (urlunparse (scheme u) nl
                      (if nonempty joined then joined else "/")
                      (params u) (query u) (fragment u))
        end
    end.

End Urllib.

(** ** Computations: state and exceptions

    A method runs on a state [S] (the object it mutates, the world it talks
    to) and either returns or raises; what it changed before raising stays
    changed. *)
Definition M (S A : Type) : Type := S -> result A * S.

Definition ret {S A} (a : A) : M S A := fun s => (Ok a, s).

Definition bind {S A B} (m : M S A) (k : A -> M S B) : M S B :=
  fun s => match m s with
           | (Ok a, s') => k a s'
           | (Raise e, s') => (Raise e, s')
           end.

Definition raise {S A} (e : exn) : M S A := fun s => (Raise e, s).

Definition get {S} : M S S := fun s => (Ok s, s).
Definition put {S} (s : S) : M S unit := fun _ => (Ok tt, s).
Definition modify {S} (f : S -> S) : M S unit := fun s => (Ok tt, f s).

(** [try: m  except <handled>: h e] *)
Definition try_except {S A} (m : M S A) (h : exn -> option (M S A)) : M S A :=
  fun s => match m s with
           | (Ok a, s') => (Ok a, s')
           | (Raise e, s') =>
               match h e with
               | Some k => k s'
               | None => (Raise e, s')
               end
           end.

(** A pure call that may raise. *)
Definition lift_result {S A} (r : result A) : M S A := fun s => (r, s).

(** Run a computation on a component of the state. *)
Definition zoom {S T A} (proj : S -> T) (inj : T -> S -> S) (m : M T A)
  : M S A :=
  fun s => let '(r, t) := m (proj s) in (r, inj t s).

Declare Scope monad_scope.
Delimit Scope monad_scope with monad.
Notation "x <- m ;; k" := (bind m (fun x => k))
  (at level 100, m at next level, right associativity) : monad_scope.
Notation "m ;;; k" := (bind m (fun _ => k))
  (at level 100, right associativity) : monad_scope.
Local Open Scope monad_scope.

(** [for x in l: acc = body acc x] *)
Fixpoint for_fold {S A B} (l : list A) (acc : B) (body : B -> A -> M S B)
  : M S B :=
  match l with
  | [] => ret acc
  | x :: l' => acc' <- body acc x ;; for_fold l' acc' body
  end.

(** ** The world outside the providers *)

#[local] Set Warnings "-register-all".

(** JSON values, as [json.loads] builds them; numbers are the integers. *)
Inductive json : Type :=
| JNull
| JBool (b : bool)
| JNum (n : Z)
| JStr (s : string)
| JList (l : list json)
| JDict (d : list (string * json)).

(** A credential record of the credential manager. *)
Record Credential := mkCredential {
  access_key : string;
  secret_key : string }.

(** [VSphereClient(cred, endpoint)] *)
Record Client := mkClient {
  client_cred : Credential;
  client_endpoint : option string }.

Record Datacenter := mkDatacenter { dc_name : string }.

(** What a provider did to the outside, in order. *)
Inductive Event : Type :=
| Ran (argv : list (option string)) (input : option string)
| ClientLogin (c : Client)
| ClientGetDatacenters (c : Client).

Inductive LogEntry : Type :=
| LogDebug (msg : string)
| LogError (msg : string)
| LogErrorExn (e : exn).

(** [history]: the external calls made so far, oldest first; [log]: the
    lines written to [app.log]; [environ]: [app.env]. *)
Record World := mkWorld {
  history : list Event;
  log : list LogEntry;
  environ : list (string * string) }.

Definition record_event (ev : Event) (w : World) : World :=
  mkWorld (history w ++ [ev]) (log w) (environ w).

Definition write_log (l : LogEntry) : M World unit :=
  modify (fun w => mkWorld (history w) (log w ++ [l]) (environ w)).

Definition set_environ (k v : string) : M World unit :=
  modify (fun w => mkWorld (history w) (log w)
                     ((k, v) :: filter (fun kv => kv.1 <> k) (environ w))).

(** How a started process ends: it exits with a status and its two output
    streams, or its binary is missing. *)
Inductive ProcResult : Type :=
| Exited (returncode : Z) (stdout stderr : string)
| Missing (msg : string).

(** The operating system: processes answer as a function of everything
    that happened before, and files exist or not. *)
Class Processes := {
  run_process : list Event -> list (option string) -> option string
                -> ProcResult;
  arun_default_check : bool;
  path_exists : string -> bool }.

(** [conjureup.utils.is_valid_hostname], and whether
    [ipaddress.ip_address] accepts a string (it raises [ValueError]
    otherwise). *)
Class HostSyntax := {
  is_valid_hostname : string -> bool;
  ip_address : string -> bool }.

(** [pkg_resources.parse_version] and the order of the versions it
    returns. *)
Class Versions := {
  Ver : Type;
  parse_version : string -> Ver;
  ver_le : Ver -> Ver -> bool }.

(** [json.loads]; [None] stands for [JSONDecodeError]. *)
Class JsonLib := { json_loads : string -> option json }.

(** An entry of juju's cloud registry: the [endpoint] and [regions] keys
    of the dictionary, either of which may be missing. *)
Record CloudEntry := mkCloud {
  cloud_endpoint : option string;
  cloud_regions : option (gmap string (list (string * string))) }.

(** [conjureup.juju.get_cloud] ([None] stands for [LookupError]) and
    [CredentialManager.get_credential]. *)
Class Juju := {
  get_cloud : string -> option CloudEntry;
  get_credential : option string -> option string -> option string
                   -> result Credential }.

(** The vSphere API behind [VSphereClient]. *)
Class VSphereApi := {
  client_login : list Event -> Client -> result unit;
  client_get_datacenters : list Event -> Client -> result (list Datacenter) }.

(** Modelled from the spec: [conjureup.utils.arun] is not among the
    sources.  It runs the command, feeding it [input]; a missing binary
    raises [FileNotFoundError]; with [check] a non-zero exit raises
    [CalledProcessError] carrying the captured streams; otherwise it returns
    the exit status and the two streams. *)
Definition arun `{Processes} (cmd : list (option string))
    (input : option string) (check : bool) : M World (Z * string * string) :=
  fun w =>
    let w' := record_event (Ran cmd input) w in
    match run_process (history w) cmd input with
    | Missing msg => (Raise (FileNotFoundError msg), w')
    | Exited rc out err =>
        if check && negb (rc =? 0)
        then (Raise (CalledProcessError rc cmd out err), w')
        else (Ok (rc, out, err), w')
    end.

(** ** [consts.cloud_types] *)
Module cloud_types.
Definition AWS : string := "ec2".
Definition MAAS : string := "maas".
Definition AZURE : string := "azure".
Definition GOOGLE : string := "gce".
Definition GCE : string := "gce".
Definition CLOUDSIGMA : string := "cloudsigma".
Definition JOYENT : string := "joyent".
Definition OPENSTACK : string := "openstack".
Definition RACKSPACE : string := "openstack".
Definition VSPHERE : string := "vsphere".
Definition ORACLE : string := "oracle".
Definition LOCALHOST : string := "localhost".
Definition LOCAL : string := "localhost".
Definition LXD : string := "localhost".
End cloud_types.

(** ** [Field] and [Form] *)

Inductive WidgetKind : Type := StringEditor | PasswordEditor | YesNo.

(** An input widget: its class and the value it holds. *)
Record Widget := mkWidget {
  widget_kind : WidgetKind;
  widget_value : option string }.

(** The validators the schema binds to fields:
    [partial(self._has_correct_endpoint)] and
    [partial(self._has_correct_api_key)] of [MAAS]. *)
Inductive Validator : Type :=
| MAAS_has_correct_endpoint
| MAAS_has_correct_api_key.

(** [error] is the text held by the field's [Text] widget: what the last
    [set_text] was given.  Every field the providers declare is given a
    key, a string, and a widget of its own. *)
Record Field := mkField {
  label : string;
  widget : Widget;
  key : string;
  storable : bool;
  error : option string;
  required : bool;
  validator : option Validator }.

(** [Field(label, widget, key)] with the defaults of [__init__]. *)
Definition Field_init (l : string) (w : Widget) (k : string) : Field :=
  mkField l w k true (Some EmptyString) true None.

(** The [value] property and its setter. *)
Definition value (f : Field) : option string := widget_value (widget f).

Definition set_value (v : option string) (f : Field) : Field :=
  mkField (label f) (mkWidget (widget_kind (widget f)) v) (key f)
    (storable f) (error f) (required f) (validator f).

(** [self.error.set_text(msg)] *)
Definition set_text (msg : option string) (f : Field) : Field :=
  mkField (label f) (widget f) (key f) (storable f) msg (required f)
    (validator f).

(** [key.replace('-', '_')]: the attribute name [Form.__init__] and
    [save_form] derive from a key. *)
Definition normalize_key (k : string) : string := Py.replace "-" "_" k.

(** [setattr] on an instance of a class without slots refuses three names,
    whatever the value: ['__class__'] and ['__dict__'] with [TypeError]
    (the value is no class and no dictionary) and ['__weakref__'] with
    [AttributeError].  Every other name is bound in the dictionary of the
    instance. *)
Definition object_refuses (name : string) : option exn :=
  if String.eqb name "__class__" || String.eqb name "__dict__"
  then Some TypeError
  else if String.eqb name "__weakref__" then Some AttributeError
  else None.

(** A form owns its fields, in declaration order.  [__init__] also binds
    each field to the attribute named by its normalised key, and nothing
    assigns to a key or to a form afterwards: the names bound on a form are
    the normalised keys of its fields ([binds]). *)
Record Form := mkForm { _fields : list Field }.

(** The loop of [Form.__init__], [acc] being [self._fields] so far.  A
    widget bound to ['_fields'] replaces the list, and
    [self._fields.append] then raises [AttributeError]. *)
Fixpoint Form_init_loop (widgets acc : list Field) : result (list Field) :=
  match widgets with
  | [] => Ok acc
  | w :: ws =>
      let name := normalize_key (key w) in
      match object_refuses name with
      | Some e => Raise e
      | None =>
          if String.eqb name "_fields" then Raise AttributeError
          else Form_init_loop ws (acc ++ [w])
      end
  end.

(** [Form(widgets)] *)
Definition Form_init (widgets : list Field) : result Form :=
  match Form_init_loop widgets [] with
  | Ok l => Ok (mkForm l)
  | Raise e => Raise e
  end.

(** The body of [Form.fields]. *)
Definition fields (form : Form) : list Field := _fields form.

(** The body of [Form.field(key)], given the list [self.fields()]
    returned: the first field declared with exactly that key. *)
Definition field (form : Form) (k : string) : option Field :=
  List.find (fun w => String.eqb k (key w)) (fields form).

(** Whether [__init__] bound the attribute [name] on the form. *)
Definition binds (name : string) (form : Form) : bool :=
  existsb (fun w => String.eqb (normalize_key (key w)) name) (_fields form).

(** [form.fields()] as a caller evaluates it: an attribute bound on the
    instance is found before the method of the class, and a field cannot
    be called. *)
Definition call_fields (form : Form) : result (list Field) :=
  if binds "fields" form then Raise TypeError else Ok (fields form).


(** Mutating the object [Form.field(key)] returned. *)
Fixpoint update_first (k : string) (f : Field -> Field) (l : list Field)
  : list Field :=
  match l with
  | [] => []
  | w :: l' => if String.eqb k (key w) then f w :: l'
               else w :: update_first k f l'
  end.

Definition update_field (k : string) (f : Field -> Field) (form : Form)
  : Form :=
  mkForm (update_first k f (fields form)).

(** Mutating the field at position [i] of the form. *)
Definition update_at (i : nat) (f : Field -> Field) (form : Form) : Form :=
  mkForm (alter f i (fields form)).

Definition required_message : string :=
  "This field is required and cannot be empty.".

(** [Field.validate], for the field at position [i] of the form the
    validators close over; [call] runs a bound validator. *)
Definition validate (call : Validator -> M Form (bool * option string))
    (i : nat) : M Form bool :=
  modify (update_at i (set_text (Some EmptyString))) ;;;
  form <- get ;;
  match fields form !! i with
  | None => raise IndexError
  | Some self =>
      if required self && negb (Py.truthy (value self))
      then modify (update_at i (set_text (Some required_message))) ;;;
           ret false
      else
        match validator self with
        | Some v =>
            r <- call v ;;
            if negb r.1
            then modify (update_at i (set_text r.2)) ;;; ret false
            else ret true
        | None => ret true
        end
  end.

(** ** [BaseProvider] *)

Record BaseProvider := mkProvider {
  auth_type : option string;
  endpoint : option string;
  model : option string;
  model_defaults : option (list (string * string));
  controller : option string;
  cloud : option string;
  cloud_type : option string;
  regions : list string;
  region : option string;
  credential : option string;
  client : option Client;
  authenticated : bool;
  form : option Form }.

(** [BaseProvider.__init__] *)
Definition BaseProvider_init : BaseProvider :=
  mkProvider None None None None None None None [] None None None false None.

(** What the subclasses' [__init__] assign after [super().__init__()].
    Each class builds its form from widgets on which [Form] returns, so
    the form is [returned (Form_init widgets) eq_refl], the proof being the
    evaluation of the call. *)
Definition with_schema (a c : string) (f : option Form) (p : BaseProvider)
  : BaseProvider :=
  mkProvider (Some a) (endpoint p) (model p) (model_defaults p)
    (controller p) (cloud p) (Some c) (regions p) (region p) (credential p)
    (client p) (authenticated p) f.

Definition set_form (f : Form) (p : BaseProvider) : BaseProvider :=
  mkProvider (auth_type p) (endpoint p) (model p) (model_defaults p)
    (controller p) (cloud p) (cloud_type p) (regions p) (region p)
    (credential p) (client p) (authenticated p) (Some f).

Definition set_cloud (c : string) (p : BaseProvider) : BaseProvider :=
  mkProvider (auth_type p) (endpoint p) (model p) (model_defaults p)
    (controller p) (Some c) (cloud_type p) (regions p) (region p)
    (credential p) (client p) (authenticated p) (form p).

Definition set_endpoint (e : option string) (p : BaseProvider)
  : BaseProvider :=
  mkProvider (auth_type p) e (model p) (model_defaults p)
    (controller p) (cloud p) (cloud_type p) (regions p) (region p)
    (credential p) (client p) (authenticated p) (form p).

Definition set_regions (r : list string) (p : BaseProvider) : BaseProvider :=
  mkProvider (auth_type p) (endpoint p) (model p) (model_defaults p)
    (controller p) (cloud p) (cloud_type p) r (region p)
    (credential p) (client p) (authenticated p) (form p).

Definition set_client (c : Client) (p : BaseProvider) : BaseProvider :=
  mkProvider (auth_type p) (endpoint p) (model p) (model_defaults p)
    (controller p) (cloud p) (cloud_type p) (regions p) (region p)
    (credential p) (Some c) (authenticated p) (form p).

Definition set_authenticated (b : bool) (p : BaseProvider) : BaseProvider :=
  mkProvider (auth_type p) (endpoint p) (model p) (model_defaults p)
    (controller p) (cloud p) (cloud_type p) (regions p) (region p)
    (credential p) (client p) b (form p).

(** [sorted(keys)] on strings: Python orders [str] by code point, which
    on the model's byte strings is [String.le]. *)
Definition sorted (l : list string) : list string := merge_sort String.le l.

(** [BaseProvider.load] *)
Definition load `{Juju} (cloud_name : string) : M BaseProvider unit :=
  match get_cloud cloud_name with
  | Some _cloud =>
      modify (set_cloud cloud_name) ;;;
      modify (set_endpoint (cloud_endpoint _cloud)) ;;;
      modify (set_regions
                (sorted (elements (dom (default ∅ (cloud_regions _cloud))))))
  | None =>
      raise (SchemaErrorUnknownCloud
               ("Unknown cloud: " +:+ cloud_name
                +:+ ", not updating provider attributes"))
  end.

(** [BaseProvider.login], [cloud_config], [default_region] and
    [configure_tools]: the defaults of the contract. *)
Definition login {S} : M S unit := ret tt.
Definition cloud_config {S A} : M S A := raise NotImplementedError.
Definition default_region : option string := None.
Definition configure_tools {S} : M S unit := ret tt.

(** ** [MAAS] *)
Module MAAS.

Definition endpoint_netloc_message : string :=
  "Unable to determine the web address, please use the format of http://maas-server.com:5240/MAAS".

Definition endpoint_format_message : string :=
  "Unable to validate that this entry is the correct format. Please use  the format of http://maas-server.com:5240/MAAS".

Definition api_key_message : string :=
  "Could not determine tokens, usually indicates an error with the format of the API KEY. That format should be 'aaaaa:bbbbb:cccc'. Please visit your MAAS user preferences page to grab the correct API Key: http://<maas-server>:5240/MAAS/account/prefs/".

(** [field.value = urljoin(base, "MAAS")] on the endpoint field *)
Definition store_joined (base : string) : M Form unit :=
  v <- lift_result (Urllib.urljoin base "MAAS") ;;
  modify (update_field "endpoint" (set_value (Some v))).

(** The [try] block of [_has_correct_endpoint] up to the address check:
    [ip = endpoint.split(':')], the port ['5240'] unless there are exactly
    two segments, else the last segment as the address. *)
Definition ip_and_port (endpoint : string) : string * string :=
  let ip := Py.split ":" endpoint in
  match ip with
  | [a; b] => (a, b)
  | _ => (Py.last_str ip, "5240")
  end.

(** [MAAS._has_correct_endpoint].  [self.form] is the form [MAAS.__init__]
    built; it binds [endpoint] and [maas_oauth] and no name of the class,
    so that [self.form.field(key)] runs [Form.field]. *)
Definition _has_correct_endpoint `{HostSyntax} : M Form (bool * option string) :=
  frm <- get ;;
  match field frm "endpoint" with
  | None => raise AttributeError
  | Some fld =>
      match value fld with
      | None => raise AttributeError
      | Some endpoint =>
          if Py.startswith "http" endpoint then
            url <- lift_result (Urllib.urlparse endpoint "") ;;
            if negb (Urllib.nonempty (Urllib.netloc url))
            then ret (false, Some endpoint_netloc_message)
            else
              (if negb (Py.contains "MAAS" (Urllib.path url))
               then store_joined (Urllib.geturl url)
               else ret tt) ;;;
              ret (true, None)
          else if is_valid_hostname endpoint then
            store_joined ("http://" +:+ endpoint +:+ ":5240") ;;;
            ret (true, None)
          else
            try_except
              (let '(ip, port) := ip_and_port endpoint in
               if ip_address ip then
                 store_joined ("http://" +:+ ip +:+ ":" +:+ port) ;;;
                 ret (true, None)
               else raise (ValueError "does not appear to be an IPv4 or IPv6 address"))
              (fun e => match e with
                        | ValueError _ =>
                            Some (ret (false, Some endpoint_format_message))
                        | _ => None
                        end)
      end
  end.

(** [MAAS._has_correct_api_key] *)
Definition _has_correct_api_key : M Form (bool * option string) :=
  frm <- get ;;
  match field frm "maas-oauth" with
  | None => raise AttributeError
  | Some fld =>
      let key := Py.split ":" (Py.or_empty (value fld)) in
      if negb (Nat.eqb (length key) 3)
      then ret (false, Some api_key_message)
      else ret (true, None)
  end.

(** Calling a validator bound by [partial]. *)
Definition call `{HostSyntax} (v : Validator) : M Form (bool * option string) :=
  match v with
  | MAAS_has_correct_endpoint => _has_correct_endpoint
  | MAAS_has_correct_api_key => _has_correct_api_key
  end.

Definition init : BaseProvider :=
  with_schema "oauth1" cloud_types.MAAS
    (Some (returned (Form_init
       [mkField "api endpoint (http://example.com:5240/MAAS)"
          (mkWidget StringEditor (Some EmptyString)) "endpoint" false
          (Some EmptyString) true (Some MAAS_has_correct_endpoint);
        mkField "api key"
          (mkWidget StringEditor (Some EmptyString)) "maas-oauth" true
          (Some EmptyString) true (Some MAAS_has_correct_api_key)]) eq_refl))
    BaseProvider_init.

(** [MAAS.cloud_config]: the dictionary it returns; it has no ['regions']
    key. *)
Definition cloud_config (self : BaseProvider) : json :=
  JDict [("type", JStr "maas");
         ("auth-types", JList [JStr "oauth1"]);
         ("endpoint", match endpoint self with
                      | Some e => JStr e
                      | None => JNull
                      end)].

End MAAS.

(** [BaseProvider.is_valid]: every field is validated, then the results
    are combined. *)
Definition is_valid `{HostSyntax} : M BaseProvider bool :=
  self <- get ;;
  match form self with
  | None => raise AttributeError
  | Some frm =>
      fs <- lift_result (call_fields frm) ;;
      let run_fields : M Form (list bool) :=
        fold_left
          (fun acc i =>
             validations <- acc ;;
             v <- validate MAAS.call i ;;
             ret (validations ++ [v]))
          (seq 0 (length fs)) (ret []) in
      validations <- zoom (fun p => default frm (form p)) set_form run_fields ;;
      ret (forallb id validations)
  end.

(** ** [AWS] *)
Module AWS.

Definition init : BaseProvider :=
  with_schema "access-key" cloud_types.AWS
    (Some (returned (Form_init
       [Field_init "AWS Access Key" (mkWidget StringEditor (Some EmptyString))
          "access-key";
        Field_init "AWS Secret Key" (mkWidget StringEditor (Some EmptyString))
          "secret-key"]) eq_refl))
    BaseProvider_init.

Definition default_region : option string := Some "us-east-1".

Definition list_cmd (self : BaseProvider) : list (option string) :=
  [Some "aws"; Some "configure"; Some "list"; Some "--profile";
   credential self].

Definition write_cmd (self : BaseProvider) : list (option string) :=
  [Some "aws"; Some "configure"; Some "--profile"; credential self].

(** ['{}\n{}\n\n\n'.format(cred.access_key, cred.secret_key)] *)
Definition write_input (cred : Credential) : string :=
  access_key cred +:+ Py.nl +:+ secret_key cred +:+ Py.nl +:+ Py.nl +:+ Py.nl.

(** [AWS.configure_tools] *)
Definition configure_tools `{Processes} `{Juju} (self : BaseProvider)
  : M World unit :=
  cred <- lift_result
            (get_credential (cloud self) (cloud_type self) (credential self)) ;;
  try_except
    (r <- arun (list_cmd self) None false ;;
     if negb (r.1.1 =? 0)
     then arun (write_cmd self) (Some (write_input cred)) true ;;; ret tt
     else ret tt)
    (fun e => match e with
              | CalledProcessError _ _ _ err =>
                  Some (write_log
                          (LogError ("Failed to configure AWS CLI profile: "
                                     +:+ err)) ;;;
                        raise e)
              | _ => None
              end).

End AWS.

(** ** [collections.OrderedDict] with the keys JSON can give it *)
Module OrderedDict.

(** Entries in insertion order, no two with equal keys. *)
Definition t : Type := list (json * json).

(** Whether a JSON value can be a dictionary key: lists and dictionaries
    are unhashable. *)
Definition hashable (k : json) : bool :=
  match k with
  | JList _ | JDict _ => false
  | _ => true
  end.

(** [==] on hashable JSON values: [True == 1] and [False == 0]. *)
Definition key_eqb (a b : json) : bool :=
  match a, b with
  | JNull, JNull => true
  | JStr s, JStr u => String.eqb s u
  | JBool x, JBool y => Bool.eqb x y
  | JNum n, JNum m => (n =? m)
  | JBool x, JNum m | JNum m, JBool x => ((if x then 1 else 0) =? m)
  | _, _ => false
  end.

(** [d[k] = v]: a present key keeps its place and gets the new value, a
    new key goes to the end. *)
Fixpoint setitem (k v : json) (d : t) : t :=
  match d with
  | [] => [(k, v)]
  | (k', v') :: d' =>
      if key_eqb k' k then (k', v) :: d'
      else (k', v') :: setitem k v d'
  end.

Fixpoint getitem (k : json) (d : t) : option (json * json) :=
  match d with
  | [] => None
  | (k', v') :: d' => if key_eqb k' k then Some (k', v') else getitem k d'
  end.

Fixpoint delitem (k : json) (d : t) : t :=
  match d with
  | [] => []
  | (k', v') :: d' => if key_eqb k' k then d' else (k', v') :: delitem k d'
  end.

(** [d.move_to_end(k, last=False)] *)
Definition move_to_front (k : json) (d : t) : result t :=
  match getitem k d with
  | Some e => Ok (e :: delitem k d)
  | None => Raise (KeyError "move_to_end")
  end.

Definition keys (d : t) : list json := d.*1.

End OrderedDict.

(** ** [Localhost] *)
Module Localhost.

Section WithVersions.
Context `{Versions}.

Record t := mk {
  base : BaseProvider;
  network_interface : option string;
  minimum_support_version : Ver;
  available : bool;
  lxd_socket_dir : option string }.

(** [Localhost.__init__], with [_set_lxd_dir_env] *)
Definition init `{Processes} : M World t :=
  let self := mk (with_schema "interactive" cloud_types.LOCALHOST None
                    BaseProvider_init)
                None (parse_version "2.17") false in
  if path_exists "/snap/bin/lxd"
  then set_environ "LXD_DIR" "/var/snap/lxd/common/lxd" ;;;
       ret (self (Some "/var/snap/lxd/common/lxd"))
  else ret (self None).

End WithVersions.

(** The request path [query] builds from its [segment]. *)
Definition query_url (segment : string) : string :=
  if Py.startswith "/1.0" segment then segment
  else Pathlib.to_str
         (Pathlib.joinpath (Pathlib.parse "/1.0") (Pathlib.parse segment)).

Definition query_cmd (segment method : string) : list string :=
  ["lxc"; "query"; "--wait"; "-X"; Py.upper method; query_url segment].

Definition json_error_message : string :=
  "Unable to parse JSON output from LXD".

(** [Localhost.query] *)
Definition query `{Processes} `{JsonLib} (segment method : string)
  : M World json :=
  let cmd := query_cmd segment method in
  try_except
    (write_log (LogDebug ("LXD query cmd: " +:+ Py.join " " cmd)) ;;;
     r <- arun (Some <$> cmd) None arun_default_check ;;
     match json_loads r.1.2 with
     | Some j => ret j
     | None => raise JSONDecodeError
     end)
    (fun e => match e with
              | JSONDecodeError =>
                  Some (write_log (LogError json_error_message) ;;;
                        raise (LocalhostJSONError json_error_message))
              | FileNotFoundError _ =>
                  Some (write_log (LogErrorExn e) ;;; raise e)
              | CalledProcessError _ _ _ _ =>
                  Some (write_log (LogErrorExn e) ;;; raise (LocalhostError e))
              | _ => None
              end).

(** [for x in j]: lists give their items, dictionaries their keys, strings
    their characters; nothing else is iterable. *)
Definition iterate (j : json) : result (list json) :=
  match j with
  | JList l => Ok l
  | JDict d => Ok (JStr <$> d.*1)
  | JStr s => Ok ((fun c => JStr (String c EmptyString))
                    <$> String.list_ascii_of_string s)
  | _ => Raise TypeError
  end.

(** [j[k]] for a string [k] *)
Definition subscript (j : json) (k : string) : result json :=
  match j with
  | JDict d =>
      match List.find (fun kv => String.eqb kv.1 k) d with
      | Some kv => Ok kv.2
      | None => Raise (KeyError k)
      end
  | _ => Raise TypeError
  end.

(** [j == s] for a string [s] *)
Definition is_str (j : json) (s : string) : bool :=
  match j with
  | JStr u => String.eqb u s
  | _ => false
  end.

(** [self.query(x)] for an item of a response: only a string has
    [startswith]. *)
Definition query_item `{Processes} `{JsonLib} (x : json) : M World json :=
  match x with
  | JStr segment => query segment "GET"
  | _ => raise AttributeError
  end.

(** The body of the loop of [get_networks], after the query of [net]. *)
Definition add_network (bridges : OrderedDict.t) (net_info : json)
  : result OrderedDict.t :=
  match subscript net_info "type" with
  | Raise e => Raise e
  | Ok ty =>
      if is_str ty "bridge" then
        match subscript net_info "name" with
        | Raise e => Raise e
        | Ok name =>
            if negb (OrderedDict.hashable name) then Raise TypeError
            else
              let bridges := OrderedDict.setitem name net_info bridges in
              if is_str name "lxdbr0"
              then OrderedDict.move_to_front (JStr "lxdbr0") bridges
              else Ok bridges
        end
      else Ok bridges
  end.

(** [Localhost.get_networks] *)
Definition get_networks `{Processes} `{JsonLib} : M World OrderedDict.t :=
  networks <- query "networks" "GET" ;;
  nets <- lift_result (iterate networks) ;;
  for_fold nets [] (fun bridges net =>
    net_info <- query_item net ;;
    lift_result (add_network bridges net_info)).

(** The body of the loop of [get_storage_pools], given the answer to the
    query of [pool]. *)
Definition add_pool (_pools : OrderedDict.t) (pool : string) (info : json)
  : result OrderedDict.t :=
  let pool_path := Pathlib.parse pool in
  let _pools := OrderedDict.setitem (JStr (Pathlib.stem pool_path)) info _pools in
  if String.eqb (Pathlib.stem pool_path) "default"
  then OrderedDict.move_to_front (JStr "default") _pools
  else Ok _pools.

(** [Localhost.get_storage_pools] *)
Definition get_storage_pools `{Processes} `{JsonLib} : M World OrderedDict.t :=
  pools <- query "storage-pools" "GET" ;;
  items <- lift_result (iterate pools) ;;
  for_fold items [] (fun _pools pool =>
    match pool with
    | JStr p =>
        info <- query p "GET" ;;
        lift_result (add_pool _pools p info)
    | _ => raise TypeError
    end).

(** [Localhost.is_server_available] *)
Definition is_server_available `{Processes} `{JsonLib} : M World json :=
  try_except (query "" "GET")
    (fun e => match e with
              | LocalhostError _ | LocalhostJSONError _ | FileNotFoundError _ =>
                  Some (raise e)
              | _ => None
              end).

(** [Localhost.is_server_compatible] *)
Definition is_server_compatible `{Versions} `{Processes} `{JsonLib} (self : t)
  : M World bool :=
  out <- try_except (j <- query "" "GET" ;; ret (Some j))
           (fun e => match e with
                     | LocalhostError _ => Some (ret None)
                     | _ => None
                     end) ;;
  match out with
  | None => ret false
  | Some out =>
      env <- lift_result (subscript out "environment") ;;
      server_ver <- lift_result (subscript env "server_version") ;;
      match server_ver with
      | JStr v => ret (ver_le (parse_version v) (minimum_support_version self))
      | _ => raise TypeError
      end
  end.

End Localhost.

(** ** The adapters that only declare their fields *)

Definition text_field (l k : string) : Field :=
  Field_init l (mkWidget StringEditor (Some EmptyString)) k.

Definition password_field (l k : string) : Field :=
  Field_init l (mkWidget PasswordEditor (Some EmptyString)) k.

Module Azure.
Definition init : BaseProvider :=
  with_schema "service-principal-secret" cloud_types.AZURE
    (Some (returned (Form_init
       [text_field "application id" "appnlication-id";
        text_field "subscription id" "subscription-id";
        password_field "application password" "application-password"]) eq_refl))
    BaseProvider_init.
End Azure.

Module Google.
Definition init : BaseProvider :=
  with_schema "oauth2" cloud_types.GCE
    (Some (returned (Form_init
       [text_field "private key" "private-key";
        text_field "client id" "client-id";
        text_field "client email" "client-email";
        text_field "project id" "project-id"]) eq_refl))
    BaseProvider_init.
End Google.

Module CloudSigma.
Definition init : BaseProvider :=
  with_schema "userpass" cloud_types.CLOUDSIGMA
    (Some (returned (Form_init
       [text_field "username" "username";
        text_field "password" "password"]) eq_refl))
    BaseProvider_init.
End CloudSigma.

Module Joyent.
Definition init : BaseProvider :=
  with_schema "userpass" cloud_types.JOYENT
    (Some (returned (Form_init
       [text_field "sdc user" "sdc-user";
        text_field "sdc key id" "sdc-key-id";
        text_field "private key" "private-key";
        Field_init "algorithm" (mkWidget StringEditor (Some "rsa-sha256"))
          "algorithm"]) eq_refl))
    BaseProvider_init.
End Joyent.

Module OpenStack.
Definition init : BaseProvider :=
  with_schema "userpass" cloud_types.OPENSTACK
    (Some (returned (Form_init
       [text_field "username" "username";
        password_field "password" "password";
        text_field "domain name" "domain-name";
        text_field "project domain name" "project-domain-name";
        text_field "access key" "access-key";
        text_field "secret key" "secret-key"]) eq_refl))
    BaseProvider_init.
End OpenStack.

Module Oracle.
Definition init : BaseProvider :=
  with_schema "userpass" cloud_types.ORACLE
    (Some (returned (Form_init
       [text_field "identity domain" "identity-domain";
        text_field "username or e-mail" "username";
        password_field "password" "password"]) eq_refl))
    BaseProvider_init.
End Oracle.

(** ** [VSphere] *)
Module VSphere.

Record t := mk {
  base : BaseProvider;
  _datacenters : option (list Datacenter) }.

Definition init : t :=
  mk (with_schema "userpass" cloud_types.VSPHERE
        (Some (returned (Form_init
           [mkField "api endpoint" (mkWidget StringEditor (Some EmptyString))
              "endpoint" false (Some EmptyString) true None;
            text_field "user" "user";
            password_field "password" "password"]) eq_refl))
        BaseProvider_init)
     None.

(** A method of a vSphere provider runs on the provider and the world. *)
Definition St : Type := t * World.

Definition self : M St t := fun s => (Ok s.1, s).

Definition update_base (f : BaseProvider -> BaseProvider) : M St unit :=
  modify (fun s : St => (mk (f (base s.1)) (_datacenters s.1), s.2)).

Definition set_datacenters (d : list Datacenter) : M St unit :=
  modify (fun s : St => (mk (base s.1) (Some d), s.2)).

(** [await app.loop.run_in_executor(None, self.client.login)] and the same
    for [get_datacenters]: the call reaches the API, its answer comes
    back.  With no client the attribute lookup on [None] fails. *)
Definition run_client {A} (ev : Client -> Event)
    (api : list Event -> Client -> result A) : M St A :=
  fun s =>
    match client (base s.1) with
    | None => (Raise AttributeError, s)
    | Some c => (api (history s.2) c, (s.1, record_event (ev c) s.2))
    end.

(** [VSphere.login] *)
Definition login `{Juju} `{VSphereApi} : M St unit :=
  me <- self ;;
  if authenticated (base me) then ret tt
  else
    cred <- lift_result
              (get_credential (cloud (base me)) (cloud_type (base me))
                 (credential (base me))) ;;
    update_base (set_client (mkClient cred (endpoint (base me)))) ;;;
    try_except
      (run_client ClientLogin client_login ;;;
       update_base (set_authenticated true))
      (fun e => match e with
                | VSphereInvalidLogin => Some (raise e)
                | _ => None
                end).

(** [VSphere.get_datacenters] *)
Definition get_datacenters `{Juju} `{VSphereApi} : M St (list Datacenter) :=
  me <- self ;;
  match _datacenters me with
  | Some cached => ret cached
  | None =>
      (if negb (authenticated (base me)) then login else ret tt) ;;;
      dcs <- run_client ClientGetDatacenters client_get_datacenters ;;
      set_datacenters dcs ;;;
      ret dcs
  end.

(** The configuration [cloud_config] returns. *)
Record Config := mkConfig {
  config_type : string;
  config_auth_types : list (option string);
  config_endpoint : option string;
  config_regions : list (string * option string) }.

(** [config['regions'][dc.name] = {'endpoint': self.endpoint}] *)
Fixpoint set_region (name : string) (ep : option string)
    (rs : list (string * option string)) : list (string * option string) :=
  match rs with
  | [] => [(name, ep)]
  | (n, e) :: rs' => if String.eqb n name then (n, ep) :: rs'
                     else (n, e) :: set_region name ep rs'
  end.

(** [VSphere.cloud_config] *)
Definition cloud_config `{Juju} `{VSphereApi} : M St Config :=
  me <- self ;;
  dcs <- get_datacenters ;;
  let regs := fold_left (fun rs dc => set_region (dc_name dc)
                                        (endpoint (base me)) rs) dcs [] in
  update_base (set_regions (sorted regs.*1)) ;;;
  ret (mkConfig "vsphere" [auth_type (base me)] (endpoint (base me)) regs).

End VSphere.

(** ** The registry: [Schema] and [load_schema] *)

(** The provider classes. *)
Inductive ProviderClass : Type :=
| AWS_ | MAAS_ | Azure_ | Google_ | CloudSigma_ | Joyent_ | OpenStack_
| VSphere_ | Oracle_ | Localhost_.

Definition Schema : list (string * ProviderClass) :=
  [("ec2", AWS_);
   ("maas", MAAS_);
   ("azure", Azure_);
   ("gce", Google_);
   ("cloudsigma", CloudSigma_);
   ("joyent", Joyent_);
   ("openstack", OpenStack_);
   ("rackspace", OpenStack_);
   ("vsphere", VSphere_);
   ("oracle", Oracle_);
   ("localhost", Localhost_);
   ("lxd", Localhost_)].

Section Registry.
Context `{Versions} `{Processes}.

(** An instance of one of the provider classes. *)
Inductive Adapter : Type :=
| AnAWS (p : BaseProvider)
| AMAAS (p : BaseProvider)
| AnAzure (p : BaseProvider)
| AGoogle (p : BaseProvider)
| ACloudSigma (p : BaseProvider)
| AJoyent (p : BaseProvider)
| AnOpenStack (p : BaseProvider)
| AVSphere (p : VSphere.t)
| AnOracle (p : BaseProvider)
| ALocalhost (p : Localhost.t).

Definition class_of (a : Adapter) : ProviderClass :=
  match a with
  | AnAWS _ => AWS_
  | AMAAS _ => MAAS_
  | AnAzure _ => Azure_
  | AGoogle _ => Google_
  | ACloudSigma _ => CloudSigma_
  | AJoyent _ => Joyent_
  | AnOpenStack _ => OpenStack_
  | AVSphere _ => VSphere_
  | AnOracle _ => Oracle_
  | ALocalhost _ => Localhost_
  end.

(** The [BaseProvider] attributes of an adapter. *)
Definition base_of (a : Adapter) : BaseProvider :=
  match a with
  | AnAWS p | AMAAS p | AnAzure p | AGoogle p | ACloudSigma p | AJoyent p
  | AnOpenStack p | AnOracle p => p
  | AVSphere p => VSphere.base p
  | ALocalhost p => Localhost.base p
  end.

(** [v()] for a class [v] of the registry *)
Definition construct (v : ProviderClass) : M World Adapter :=
  match v with
  | AWS_ => ret (AnAWS AWS.init)
  | MAAS_ => ret (AMAAS MAAS.init)
  | Azure_ => ret (AnAzure Azure.init)
  | Google_ => ret (AGoogle Google.init)
  | CloudSigma_ => ret (ACloudSigma CloudSigma.init)
  | Joyent_ => ret (AJoyent Joyent.init)
  | OpenStack_ => ret (AnOpenStack OpenStack.init)
  | VSphere_ => ret (AVSphere VSphere.init)
  | Oracle_ => ret (AnOracle Oracle.init)
  | Localhost_ => p <- Localhost.init ;; ret (ALocalhost p)
  end.

(** [load_schema] *)
Definition load_schema (cloud : string) : M World Adapter :=
  (fix scan (l : list (string * ProviderClass)) : M World Adapter :=
     match l with
     | [] => raise (SchemaError cloud)
     | (k, v) :: l' => if String.eqb cloud k then construct v else scan l'
     end) Schema.

End Registry.

(** ** [BaseProvider.save_form]

    [setattr] can give a provider attributes its class does not declare, and
    can put a string where the class keeps something else.  A provider
    object is therefore the record of its declared attributes together with
    [obj_attrs], the attributes [setattr] could not put in the record;
    reading an attribute looks there first. *)
Record Obj := mkObj {
  obj_base : BaseProvider;
  obj_attrs : gmap string (option string) }.

(** The declared attributes that hold a string or [None]. *)
Definition string_attr (name : string) : option (BaseProvider -> option string) :=
  if String.eqb name "auth_type" then Some auth_type
  else if String.eqb name "endpoint" then Some endpoint
  else if String.eqb name "model" then Some model
  else if String.eqb name "controller" then Some controller
  else if String.eqb name "cloud" then Some cloud
  else if String.eqb name "cloud_type" then Some cloud_type
  else if String.eqb name "region" then Some region
  else if String.eqb name "credential" then Some credential
  else None.

Definition set_string_attr (name : string) (v : option string)
    (p : BaseProvider) : BaseProvider :=
  mkProvider
    (if String.eqb name "auth_type" then v else auth_type p)
    (if String.eqb name "endpoint" then v else endpoint p)
    (if String.eqb name "model" then v else model p)
    (model_defaults p)
    (if String.eqb name "controller" then v else controller p)
    (if String.eqb name "cloud" then v else cloud p)
    (if String.eqb name "cloud_type" then v else cloud_type p)
    (regions p)
    (if String.eqb name "region" then v else region p)
    (if String.eqb name "credential" then v else credential p)
    (client p) (authenticated p) (form p).

(** The names [setattr] refuses on a provider: [default_region] is a
    property without a setter ([AttributeError]), and the three names it
    refuses on every object. *)
Definition provider_refuses (name : string) : option exn :=
  if String.eqb name "default_region" then Some AttributeError
  else object_refuses name.

(** The provider with [name] bound to [v]. *)
Definition bind_attr (name : string) (v : option string) (self : Obj) : Obj :=
  match string_attr name with
  | Some _ => mkObj (set_string_attr name v (obj_base self))
                (delete name (obj_attrs self))
  | None => mkObj (obj_base self) (<[name := v]> (obj_attrs self))
  end.

(** [setattr(self, name, v)] for a string or [None] [v] *)
Definition setattr (name : string) (v : option string) (self : Obj)
  : result Obj :=
  match provider_refuses name with
  | Some e => Raise e
  | None => Ok (bind_attr name v self)
  end.

(** [getattr(self, name)] when it is a string or [None] held by the
    instance; the answer [None] stands for everything else: no such
    attribute, a method, a property, a list. *)
Definition getattr (name : string) (self : Obj) : option (option string) :=
  match obj_attrs self !! name with
  | Some v => Some v
  | None => (fun proj => proj (obj_base self)) <$> string_attr name
  end.

(** [BaseProvider.save_form] *)
Definition save_form : M Obj unit :=
  self <- get ;;
  match obj_attrs self !! "form" with
  | Some _ => raise AttributeError
  | None =>
      match form (obj_base self) with
      | None => raise AttributeError
      | Some frm =>
          fs <- lift_result (call_fields frm) ;;
          for_fold fs tt
            (fun _ f =>
               self <- get ;;
               self' <- lift_result
                          (setattr (normalize_key (key f)) (value f) self) ;;
               put self')
      end
  end.

(** * Statements and proofs *)

#[local] Arguments Ascii.eqb : simpl nomatch.
#[local] Arguments String.eqb : simpl nomatch.

(** ** Vocabulary of the statements *)

(** The number of occurrences of a character. *)
Fixpoint count_char (c : ascii) (s : string) : nat :=
  match s with
  | EmptyString => 0%nat
  | String a s' => ((if Ascii.eqb a c then 1 else 0) + count_char c s')%nat
  end.

(** The form's field declared with key [k] holds the value [v]. *)
Definition holds (frm : Form) (k : string) (v : option string) : Prop :=
  exists fld, field frm k = Some fld /\ value fld = v.

(** The form after [field(k).value = v]. *)
Definition store (k v : string) (frm : Form) : Form :=
  update_field k (set_value (Some v)) frm.

(** What a declared field shows: label, key, widget class, in order. *)
Definition field_set (p : BaseProvider) : list (string * string * WidgetKind) :=
  (fun f => (label f, key f, widget_kind (widget f)))
    <$> default [] (fields <$> form p).

(** The world after one more process was started. *)
Definition after_run (w : World) (cmd : list (option string))
    (input : option string) : World :=
  record_event (Ran cmd input) w.

Definition set_credential (c : string) (p : BaseProvider) : BaseProvider :=
  mkProvider (auth_type p) (endpoint p) (model p) (model_defaults p)
    (controller p) (cloud p) (cloud_type p) (regions p) (region p)
    (Some c) (client p) (authenticated p) (form p).

(** The number of datacenter fetches among the events. *)
Definition fetches (h : list Event) : nat :=
  length (List.filter (fun ev => match ev with
                                 | ClientGetDatacenters _ => true
                                 | _ => false
                                 end) h).

(** The number of logins among the events. *)
Definition logins (h : list Event) : nat :=
  length (List.filter (fun ev => match ev with
                                 | ClientLogin _ => true
                                 | _ => false
                                 end) h).

(** A host, port or network location without the characters that end or
    bracket a network location: no ['/'], ['?'], ['#'], ['['], [']']. *)
Definition plain_char (c : ascii) : bool :=
  negb (Urllib.netloc_delim c) && negb (Ascii.eqb c "[")
  && negb (Ascii.eqb c "]").

Definition plain (s : string) : bool := Py.all_chars plain_char s.

(** The canonical endpoint: ['http://'], a non-empty network location,
    ['/MAAS'] and nothing more. *)
Definition canonical (s : string) : bool :=
  match s with
  | String "h" (String "t" (String "t" (String "p" (String ":"
      (String "/" (String "/" rest)))))) =>
      let '(nl, tail) := Urllib.splitnetloc rest in
      Urllib.nonempty nl && String.eqb tail "/MAAS"
  | _ => false
  end.

(** [s.endswith(suffix)] *)
Fixpoint ends_with (suffix s : string) : bool :=
  String.eqb s suffix
  || match s with
     | EmptyString => false
     | String _ s' => ends_with suffix s'
     end.

(** [[f x for x in l]] for a call that may raise *)
Fixpoint map_m {S A B} (f : A -> M S B) (l : list A) : M S (list B) :=
  match l with
  | [] => ret []
  | x :: l' => y <- f x ;; ys <- map_m f l' ;; ret (y :: ys)
  end.

(** A loop that only computes: [for x in l: acc = f acc x]. *)
Fixpoint result_fold {A B} (f : B -> A -> result B) (l : list A) (acc : B)
  : result B :=
  match l with
  | [] => Ok acc
  | x :: l' => match f acc x with
               | Ok acc' => result_fold f l' acc'
               | Raise e => Raise e
               end
  end.

(** Move to front, as a specification: the entries with the key [k] first,
    then all the others, each group in its original order. *)
Definition front (k : string) (es : list (string * json)) : OrderedDict.t :=
  (fun e => (JStr e.1, e.2))
    <$> (List.filter (fun e => String.eqb e.1 k) es
         ++ List.filter (fun e => negb (String.eqb e.1 k)) es).

(** One round of either loop, on an entry with a string key. *)
Definition put_front (special : string) (acc : OrderedDict.t)
    (e : string * json) : result OrderedDict.t :=
  let acc := OrderedDict.setitem (JStr e.1) e.2 acc in
  if String.eqb e.1 special
  then OrderedDict.move_to_front (JStr special) acc
  else Ok acc.

(** The name of a network document, when it is a bridge with a string for
    a name. *)
Definition bridge_name (net_info : json) : option string :=
  match Localhost.subscript net_info "type" with
  | Ok ty =>
      if Localhost.is_str ty "bridge" then
        match Localhost.subscript net_info "name" with
        | Ok (JStr n) => Some n
        | _ => None
        end
      else None
  | Raise _ => None
  end.

(** A network document as LXD sends it: it has a type, and when the type
    is ['bridge'] it has a string for a name. *)
Definition network_doc (net_info : json) : Prop :=
  exists ty, Localhost.subscript net_info "type" = Ok ty
             /\ (Localhost.is_str ty "bridge" = true
                 -> is_Some (bridge_name net_info)).

(** The bridges among the documents, by name, in order. *)
Definition bridge_entries (infos : list json) : list (string * json) :=
  omap (fun info => (fun n => (n, info)) <$> bridge_name info) infos.

(** The pools with the keys the loop gives them, in order. *)
Definition pool_entries (pools : list (string * json))
  : list (string * json) :=
  (fun p => (Pathlib.stem (Pathlib.parse p.1), p.2)) <$> pools.

(** No entry of the dictionary has the key [k]. *)
Definition fresh (k : string) (d : OrderedDict.t) : Prop :=
  Forall (fun e => OrderedDict.key_eqb e.1 (JStr k) = false) d.

(** The required check of [validate]: the field is optional or holds a
    truthy value. *)
Definition passes (f : Field) : bool :=
  negb (required f && negb (Py.truthy (value f))).

(** The field with the error text the required check leaves. *)
Definition mark (f : Field) : Field :=
  set_text (Some (if passes f then EmptyString else required_message)) f.

(** A field that differs from another in its error text at most. *)
Definition same_but_error (f g : Field) : Prop :=
  (label g, widget g, key g, storable g, required g, validator g)
  = (label f, widget f, key f, storable f, required f, validator f).


(** A form as [Form] builds one: a form of these fields can be built. *)
Definition built (frm : Form) : Prop := Form_init (fields frm) = Ok frm.


(** No two of the keys are equal, as Python compares keys. *)
Fixpoint distinct (ks : list json) : Prop :=
  match ks with
  | [] => True
  | k :: ks' =>
      Forall (fun k' => OrderedDict.key_eqb k' k = false) ks' /\ distinct ks'
  end.

(** If the dictionary has the key [k] at all, it has it first. *)
Definition leads (k : string) (d : OrderedDict.t) : Prop :=
  is_Some (OrderedDict.getitem (JStr k) d) ->
  exists v rest, d = (JStr k, v) :: rest.

(** The document describes a bridge. *)
Definition is_bridge (net_info : json) : Prop :=
  exists ty, Localhost.subscript net_info "type" = Ok ty
             /\ Localhost.is_str ty "bridge" = true.

(** Simple collaborators, to run the model on concrete inputs. *)
Module Sample.

Definition all_digits (s : string) : bool :=
  Urllib.nonempty s && Py.all_chars Py.is_digit s.

#[export] Instance hosts : HostSyntax := {
  is_valid_hostname s :=
    Urllib.nonempty s
    && Py.all_chars (fun c => Urllib.is_alpha c || Py.is_digit c
                              || Ascii.eqb c "-" || Ascii.eqb c ".") s
    && negb (Py.all_chars (fun c => Py.is_digit c || Ascii.eqb c ".") s);
  ip_address s :=
    let octets := Py.split "." s in
    Nat.eqb (length octets) 4 && forallb all_digits octets }.

(** A double quote, and a quoted JSON string. *)
Definition dq : string := String (ascii_of_nat 34) EmptyString.
Definition q (s : string) : string := dq +:+ s +:+ dq.

Definition pools_text : string :=
  "[" +:+ q "/1.0/storage-pools/zfs" +:+ ", "
  +:+ q "/1.0/storage-pools/default.bak" +:+ "]".
Definition zfs_text : string := "{" +:+ q "name" +:+ ": " +:+ q "zfs" +:+ "}".
Definition bak_text : string :=
  "{" +:+ q "name" +:+ ": " +:+ q "default.bak" +:+ "}".
Definition server_text : string :=
  "{" +:+ q "environment" +:+ ": {" +:+ q "server_version" +:+ ": "
  +:+ q "2.0.11" +:+ "}}".

(** A decoder for the texts above. *)
#[export] Instance decoder : JsonLib := {
  json_loads s :=
    if String.eqb s pools_text
    then Some (JList [JStr "/1.0/storage-pools/zfs";
                      JStr "/1.0/storage-pools/default.bak"])
    else if String.eqb s zfs_text then Some (JDict [("name", JStr "zfs")])
    else if String.eqb s bak_text
    then Some (JDict [("name", JStr "default.bak")])
    else if String.eqb s server_text
    then Some (JDict [("environment",
                       JDict [("server_version", JStr "2.0.11")])])
    else None }.

(** A machine where an LXD with two storage pools answers [lxc query], and
    where the AWS CLI has no profile yet. *)
#[export] Instance machine : Processes := {
  run_process _ argv _ :=
    match argv with
    | [Some "lxc"; Some "query"; Some "--wait"; Some "-X"; Some "GET";
       Some url] =>
        if String.eqb url "/1.0" then Exited 0 server_text ""
        else if String.eqb url "/1.0/storage-pools"
        then Exited 0 pools_text ""
        else if String.eqb url "/1.0/storage-pools/zfs"
        then Exited 0 zfs_text ""
        else if String.eqb url "/1.0/storage-pools/default.bak"
        then Exited 0 bak_text ""
        else Exited 1 "" "Error: not found"
    | [Some "aws"; Some "configure"; Some "list"; Some "--profile"; _] =>
        Exited 255 "" "The config profile could not be found"
    | [Some "aws"; Some "configure"; Some "--profile"; _] => Exited 0 "" ""
    | _ => Missing "No such file or directory"
    end;
  arun_default_check := true;
  path_exists _ := false }.

#[export] Instance juju : Juju := {
  get_cloud name :=
    if String.eqb name "aws"
    then Some (mkCloud None
                 (Some (<["us-west-2" := []]> (<["eu-west-1" := []]> ∅))))
    else None;
  get_credential _ _ name :=
    match name with
    | Some _ => Ok (mkCredential "AKIDEXAMPLE" "wJalrEXAMPLEKEY")
    | None => Raise (OtherError "CredentialError")
    end }.

#[export] Instance vcenter : VSphereApi := {
  client_login _ _ := Ok tt;
  client_get_datacenters _ _ := Ok [mkDatacenter "dc0"; mkDatacenter "dc1"] }.

Fixpoint decimal (acc : nat) (s : string) : nat :=
  match s with
  | EmptyString => acc
  | String c s' => decimal (10 * acc + (nat_of_ascii c - 48)) s'
  end.

Fixpoint lex_le (a b : list nat) : bool :=
  match a, b with
  | [], _ => true
  | _ :: _, [] => false
  | x :: a', y :: b' => (x <? y)%nat || ((x =? y)%nat && lex_le a' b')
  end.

(** Versions as dotted numbers. *)
#[export] Instance dotted : Versions := {
  Ver := list nat;
  parse_version s := decimal 0 <$> Py.split "." s;
  ver_le := lex_le }.

Definition empty_world : World := mkWorld [] [] [].

Definition networks_text : string :=
  "[" +:+ q "/1.0/networks/eth0" +:+ ", " +:+ q "/1.0/networks/br1" +:+ ", "
  +:+ q "/1.0/networks/lxdbr0" +:+ "]".

Definition network_text (name type : string) : string :=
  "{" +:+ q "name" +:+ ": " +:+ q name +:+ ", " +:+ q "type" +:+ ": "
  +:+ q type +:+ "}".

Definition network_json (name type : string) : json :=
  JDict [("name", JStr name); ("type", JStr type)].

(** A decoder for the network texts. *)
Definition network_decoder : JsonLib := {|
  json_loads s :=
    if String.eqb s networks_text
    then Some (JList [JStr "/1.0/networks/eth0"; JStr "/1.0/networks/br1";
                      JStr "/1.0/networks/lxdbr0"])
    else if String.eqb s (network_text "eth0" "physical")
    then Some (network_json "eth0" "physical")
    else if String.eqb s (network_text "br1" "bridge")
    then Some (network_json "br1" "bridge")
    else if String.eqb s (network_text "lxdbr0" "bridge")
    then Some (network_json "lxdbr0" "bridge")
    else None |}.

(** A machine where LXD knows a physical network and two bridges. *)
Definition network_machine : Processes := {|
  run_process _ argv _ :=
    match argv with
    | [Some "lxc"; Some "query"; Some "--wait"; Some "-X"; Some "GET";
       Some url] =>
        if String.eqb url "/1.0/networks" then Exited 0 networks_text ""
        else if String.eqb url "/1.0/networks/eth0"
        then Exited 0 (network_text "eth0" "physical") ""
        else if String.eqb url "/1.0/networks/br1"
        then Exited 0 (network_text "br1" "bridge") ""
        else if String.eqb url "/1.0/networks/lxdbr0"
        then Exited 0 (network_text "lxdbr0" "bridge") ""
        else Exited 1 "" "Error: not found"
    | _ => Missing "No such file or directory"
    end;
  arun_default_check := true;
  path_exists _ := false |}.

Definition maas_form (endpoint api_key : option string) : Form :=
  update_field "maas-oauth" (set_value api_key)
    (update_field "endpoint" (set_value endpoint)
       (default (mkForm []) (form MAAS.init))).

End Sample.

(** ** The MAAS API-key validator *)

Lemma split_length c s : length (Py.split c s) = S (count_char c s).
Proof.
  induction s as [|a s IH]; [reflexivity|].
  simpl. destruct (Ascii.eqb a c); simpl.
  - by rewrite IH.
  - destruct (Py.split c s) as [|h t]; simpl in *; lia.
Qed.

Lemma api_key_outcome frm fld :
  field frm "maas-oauth" = Some fld ->
  MAAS._has_correct_api_key frm =
    (Ok (if Nat.eqb (length (Py.split ":" (Py.or_empty (value fld)))) 3
         then (true, None) else (false, Some MAAS.api_key_message)), frm).
Proof.
  intros Hf. unfold MAAS._has_correct_api_key, bind, get. rewrite Hf.
  by destruct (Nat.eqb _ 3).
Qed.

(** C8: the API-key validator succeeds exactly when the value of the
    ['maas-oauth'] field splits at its colons into three segments, that is,
    when it holds two colons; it never raises and leaves the form alone;
    on failure the message is the format hint that names
    ['aaaaa:bbbbb:cccc'].  ['a:b:c'] passes; ['a:b'], ['a:b:c:d'], the
    empty string and [None] fail. *)
Theorem api_key_three_segments frm v :
  holds frm "maas-oauth" v ->
  (exists ok msg,
     MAAS._has_correct_api_key frm = (Ok (ok, msg), frm)
     /\ (ok = true <-> length (Py.split ":" (Py.or_empty v)) = 3%nat)
     /\ (ok = true <-> count_char ":" (Py.or_empty v) = 2%nat)
     /\ (ok = true -> msg = None)
     /\ (ok = false -> msg = Some MAAS.api_key_message))
  /\ Py.contains "aaaaa:bbbbb:cccc" MAAS.api_key_message = true
  /\ (MAAS._has_correct_api_key (Sample.maas_form None (Some "a:b:c"))).1
     = Ok (true, None)
  /\ (MAAS._has_correct_api_key (Sample.maas_form None (Some "a:b"))).1
     = Ok (false, Some MAAS.api_key_message)
  /\ (MAAS._has_correct_api_key (Sample.maas_form None (Some "a:b:c:d"))).1
     = Ok (false, Some MAAS.api_key_message)
  /\ (MAAS._has_correct_api_key (Sample.maas_form None (Some ""))).1
     = Ok (false, Some MAAS.api_key_message)
  /\ (MAAS._has_correct_api_key (Sample.maas_form None None)).1
     = Ok (false, Some MAAS.api_key_message).
Proof.
  intros (fld & Hf & Hv). split; [|by vm_compute].
  rewrite (api_key_outcome _ _ Hf), Hv.
  pose proof (split_length ":" (Py.or_empty v)) as Hlen.
  destruct (Nat.eqb _ 3) eqn:E.
  - apply Nat.eqb_eq in E. exists true, None.
    repeat split; auto; try discriminate; lia.
  - apply Nat.eqb_neq in E. exists false, (Some MAAS.api_key_message).
    repeat split; auto; try discriminate; intros; lia.
Qed.

Lemma api_key_three_segments_witness :
  holds (Sample.maas_form None (Some "k:t:s")) "maas-oauth" (Some "k:t:s")
  /\ exists ok msg,
       MAAS._has_correct_api_key (Sample.maas_form None (Some "k:t:s"))
       = (Ok (ok, msg), Sample.maas_form None (Some "k:t:s"))
       /\ (ok = true <-> length (Py.split ":" "k:t:s") = 3%nat).
Proof.
  assert (H : holds (Sample.maas_form None (Some "k:t:s")) "maas-oauth"
                (Some "k:t:s")).
  { eexists. split; reflexivity. }
  split; [exact H|].
  destruct (api_key_three_segments _ _ H) as [(ok & msg & E & I & _) _].
  exists ok, msg. split; [exact E | exact I].
Defined.

(** ** The request path of [Localhost.query] *)

Lemma append_cons c s t : String c s +:+ t = String c (s +:+ t).
Proof. reflexivity. Qed.

Lemma append_empty_l s : EmptyString +:+ s = s.
Proof. reflexivity. Qed.

(** Whatever the process answers, [query] starts exactly one process, with
    the arguments [query_cmd] lists. *)
Lemma query_runs_query_cmd `{Processes} `{JsonLib} segment method w :
  history (Localhost.query segment method w).2
  = history w ++ [Ran (Some <$> Localhost.query_cmd segment method) None].
Proof.
  unfold Localhost.query, try_except, bind, write_log, modify, arun, raise,
    ret; simpl.
  destruct (run_process _ _ _) as [rc out err|msg]; simpl.
  - destruct (arun_default_check && negb (rc =? 0)); simpl; [done|].
    by destruct (json_loads out).
  - done.
Qed.

(** A segment that starts with ['/1.0'] is the path; a segment that does
    not start with a slash is joined to ['/1.0'], so the path starts with
    it. *)
Lemma query_url_prefixed segment :
  (Py.startswith "/1.0" segment = true ->
   Localhost.query_url segment = segment)
  /\ (Py.startswith "/" segment = false ->
      Py.startswith "/1.0" (Localhost.query_url segment) = true).
Proof.
  unfold Localhost.query_url. split.
  - by intros ->.
  - intros Hrel.
    assert (Py.startswith "/1.0" segment = false) as ->.
    { destruct segment as [|c s]; [done|]. simpl in *.
      by destruct (Ascii.eqb "/" c). }
    assert (Pathlib.splitroot segment = (EmptyString, segment)) as Hroot.
    { destruct segment as [|c s]; [done|]. simpl in Hrel.
      unfold Pathlib.splitroot.
      destruct c as [[] [] [] [] [] [] [] []]; try done. }
    unfold Pathlib.parse at 2. rewrite Hroot. simpl.
    unfold Pathlib.joinpath, Pathlib.to_str. simpl.
    by destruct (filter _ _).
Qed.

(** C3 (the code departs from the claim): for the segment ['/networks'],
    which starts with a slash but not with ['/1.0'], [query] runs
    [lxc query --wait -X GET /networks]: joining an absolute segment to
    [Path('/1.0')] drops the prefix, and the request path does not begin
    with ['/1.0']. *)
Theorem query_absolute_segment_loses_prefix `{Processes} `{JsonLib} w :
  history (Localhost.query "/networks" "get" w).2
  = history w
    ++ [Ran [Some "lxc"; Some "query"; Some "--wait"; Some "-X"; Some "GET";
             Some "/networks"] None]
  /\ Py.startswith "/1.0" (Localhost.query_url "/networks") = false.
Proof.
  split; [|reflexivity]. by rewrite query_runs_query_cmd.
Qed.

(** ** The registry *)

(** C9: [load_schema('rackspace')] and [load_schema('openstack')] return
    the same thing in every world: an instance of the class [OpenStack],
    built without touching the world, with auth type ['userpass'], cloud
    type ['openstack'] and the same six fields (labels, keys, widget
    classes) in declaration order. *)
Theorem rackspace_aliases_openstack `{Versions} `{Processes} (w : World) :
  load_schema "rackspace" w = load_schema "openstack" w
  /\ exists a,
       load_schema "rackspace" w = (Ok a, w)
       /\ load_schema "openstack" w = (Ok a, w)
       /\ class_of a = OpenStack_
       /\ auth_type (base_of a) = Some "userpass"
       /\ cloud_type (base_of a) = Some "openstack"
       /\ field_set (base_of a)
          = [("username", "username", StringEditor);
             ("password", "password", PasswordEditor);
             ("domain name", "domain-name", StringEditor);
             ("project domain name", "project-domain-name", StringEditor);
             ("access key", "access-key", StringEditor);
             ("secret key", "secret-key", StringEditor)].
Proof.
  split; [reflexivity|].
  exists (AnOpenStack OpenStack.init). repeat split; reflexivity.
Qed.

(** ** [BaseProvider.load] *)

Lemma sorted_spec (l : list string) :
  Sorted String.le (sorted l) /\ sorted l ≡ₚ l.
Proof.
  split; [apply (Sorted_merge_sort String.le) | apply merge_sort_Permutation].
Qed.

(** C7: when the registry knows the cloud, [load] returns and sets [cloud]
    to the name, [endpoint] to the entry's endpoint ([None] when the entry
    has none) and [regions] to the keys of the entry's region map in
    ascending order, each once (no region when the entry has no map), all
    other attributes staying as they were; when the registry does not know
    the cloud, [load] raises [SchemaErrorUnknownCloud] and the provider is
    unchanged. *)
Theorem load_hit_or_unknown_cloud `{Juju} (cloud_name : string)
    (p : BaseProvider) :
  match get_cloud cloud_name with
  | Some entry =>
      exists p',
        load cloud_name p = (Ok tt, p')
        /\ cloud p' = Some cloud_name
        /\ endpoint p' = cloud_endpoint entry
        /\ Sorted String.le (regions p')
        /\ NoDup (regions p')
        /\ (forall r, r ∈ regions p'
                      <-> exists m, cloud_regions entry = Some m
                                    /\ is_Some (m !! r))
        /\ (cloud_regions entry = None -> regions p' = [])
        /\ (auth_type p', model p', model_defaults p', controller p',
            cloud_type p', region p', credential p', client p',
            authenticated p', form p')
           = (auth_type p, model p, model_defaults p, controller p,
              cloud_type p, region p, credential p, client p,
              authenticated p, form p)
  | None =>
      exists msg, load cloud_name p = (Raise (SchemaErrorUnknownCloud msg), p)
  end.
Proof.
  unfold load. destruct (get_cloud cloud_name) as [entry|]; [|by eexists].
  destruct (sorted_spec (elements (dom (default ∅ (cloud_regions entry)))))
    as [Hs Hp].
  set (rs := sorted _) in *. clearbody rs.
  eexists. split; [reflexivity|]. simpl.
  split; [done|]. split; [done|]. split; [done|].
  split; [rewrite Hp; apply NoDup_elements|].
  split; [|split; [|done]].
  - intros r. rewrite Hp, elem_of_elements, elem_of_dom.
    destruct (cloud_regions entry) as [m|]; simpl.
    + split; [by exists m | by intros (? & [= <-] & ?)].
    + rewrite lookup_empty. split; [by intros [] | by intros (? & [=] & _)].
  - intros He. rewrite He in Hp. simpl in Hp.
    rewrite dom_empty_L, elements_empty in Hp.
    by apply Permutation_nil_r in Hp.
Qed.

(** ** [Field.validate] *)

(** C6: [validate] first clears the error text of the field and touches
    nothing else.  If the field is required and its value is falsy, the
    error text becomes ['This field is required and cannot be empty.'] and
    the answer is [False], whatever the validators would do: none is
    run.  Otherwise a field without validator passes with the error text
    empty; a field with one runs it once, on the form with the error
    text already cleared: a failed result puts its message in the error
    text and answers [False], a successful one answers [True], an
    exception passes through.  Only the error text of the field ever
    changes, apart from what the validator itself does. *)
Theorem validate_required_then_custom
    (call : Validator -> M Form (bool * option string))
    (frm : Form) (i : nat) (self : Field) :
  fields frm !! i = Some self ->
  let cleared := update_at i (set_text (Some EmptyString)) frm in
  (error <$> fields cleared !! i) = Some (Some EmptyString)
  /\ fields cleared !! i = Some (set_text (Some EmptyString) self)
  /\ same_but_error self (set_text (Some EmptyString) self)
  /\ (forall j, j <> i -> fields cleared !! j = fields frm !! j)
  /\ (required self = true -> Py.truthy (value self) = false ->
      let failed := update_at i (set_text (Some required_message)) cleared in
      validate call i frm = (Ok false, failed)
      /\ (forall call', validate call' i frm = (Ok false, failed))
      /\ (exists self',
            fields failed !! i = Some self'
            /\ error self'
               = Some "This field is required and cannot be empty."
            /\ same_but_error self self')
      /\ (forall j, j <> i -> fields failed !! j = fields frm !! j))
  /\ (required self && negb (Py.truthy (value self)) = false ->
      match validator self with
      | None => validate call i frm = (Ok true, cleared)
      | Some v =>
          match call v cleared with
          | (Ok (true, msg), frm') => validate call i frm = (Ok true, frm')
          | (Ok (false, msg), frm') =>
              validate call i frm
              = (Ok false, update_at i (set_text msg) frm')
              /\ (forall g, fields frm' !! i = Some g ->
                    exists g',
                      fields (update_at i (set_text msg) frm') !! i = Some g'
                      /\ error g' = msg /\ same_but_error g g')
              /\ (forall j, j <> i ->
                    fields (update_at i (set_text msg) frm') !! j
                    = fields frm' !! j)
          | (Raise e, frm') => validate call i frm = (Raise e, frm')
          end
      end).
Proof.
  intros Hi cleared.
  assert (Hat : forall (g : Field -> Field) (f : Form) (x : Field),
            fields f !! i = Some x ->
            fields (update_at i g f) !! i = Some (g x)).
  { intros g f x Hx. unfold update_at, fields in *. simpl.
    by rewrite list_lookup_alter_eq, Hx. }
  assert (Hoff : forall (g : Field -> Field) (f : Form) j, j <> i ->
            fields (update_at i g f) !! j = fields f !! j).
  { intros g f j Hj. unfold update_at, fields. simpl.
    by rewrite list_lookup_alter_ne. }
  assert (Hc : fields cleared !! i = Some (set_text (Some EmptyString) self))
    by by apply Hat.
  split; [by rewrite Hc|]. split; [exact Hc|]. split; [done|].
  split; [intros j Hj; by apply Hoff|].
  assert (Hrun : forall c, validate c i frm
            = (if required self && negb (Py.truthy (value self))
               then (Ok false,
                     update_at i (set_text (Some required_message)) cleared)
               else match validator self with
                    | None => (Ok true, cleared)
                    | Some v =>
                        match c v cleared with
                        | (Ok r, frm') =>
                            if negb r.1
                            then (Ok false, update_at i (set_text r.2) frm')
                            else (Ok true, frm')
                        | (Raise e, frm') => (Raise e, frm')
                        end
                    end)).
  { intros c. unfold validate, bind, modify, get, ret, raise. fold cleared.
    rewrite Hc. unfold value. simpl.
    destruct (required self && negb _); [done|].
    destruct (validator self) as [v|]; [|done].
    destruct (c v cleared) as [[r|e] frm']; [|done]. by destruct (negb r.1). }
  split.
  - intros Hreq Hval failed.
    assert (Hfail : forall c, validate c i frm = (Ok false, failed)).
    { intros c. by rewrite Hrun, Hreq, Hval. }
    split; [apply Hfail|]. split; [exact Hfail|]. split.
    + eexists. split; [by apply Hat|]. done.
    + intros j Hj. unfold failed. rewrite Hoff by done. by apply Hoff.
  - intros Hpass. rewrite Hrun, Hpass.
    destruct (validator self) as [v|]; [|done].
    destruct (call v cleared) as [[[[] msg]|e] frm']; simpl; [done| |done].
    split; [done|]. split.
    + intros g Hg. eexists. split; [by apply Hat|]. done.
    + intros j Hj. by apply Hoff.
Qed.

Lemma validate_required_then_custom_witness :
  let frm := Sample.maas_form (Some "") None in
  fields frm !! 0%nat
  = Some (mkField "api endpoint (http://example.com:5240/MAAS)"
            (mkWidget StringEditor (Some "")) "endpoint" false
            (Some "") true (Some MAAS_has_correct_endpoint))
  /\ exists frm',
       validate (@MAAS.call Sample.hosts) 0 frm = (Ok false, frm')
       /\ fields frm' !! 0%nat
          = Some (mkField "api endpoint (http://example.com:5240/MAAS)"
                    (mkWidget StringEditor (Some "")) "endpoint" false
                    (Some "This field is required and cannot be empty.")
                    true (Some MAAS_has_correct_endpoint))
       /\ fields frm' !! 1%nat = fields frm !! 1%nat.
Proof.
  intros frm. split; [reflexivity|].
  destruct (validate_required_then_custom (@MAAS.call Sample.hosts)
              frm 0 _ eq_refl)
    as (_ & _ & _ & _ & Hreq & _).
  destruct (Hreq eq_refl eq_refl) as (Hrun & _ & _ & Hrest).
  eexists. split; [exact Hrun|]. split; [reflexivity|].
  apply Hrest. discriminate.
Defined.

(** ** [AWS.configure_tools] *)

(** C4: with the credential found, [configure_tools] first runs the
    profile-list check, without input.  If the check exits with status 0
    nothing else happens: no write, no log line.  If it exits with another
    status, exactly one more process is started,
    [aws configure --profile <credential>], fed the access key, the secret
    key and two empty lines; if that one exits with status 0 the method
    returns, and if not the method logs the captured error stream and
    raises the [CalledProcessError] again. *)
Theorem configure_tools_writes_once_if_needed `{Processes} `{Juju}
    (self : BaseProvider) (cred : Credential) (w : World) :
  get_credential (cloud self) (cloud_type self) (credential self) = Ok cred ->
  let check := [Some "aws"; Some "configure"; Some "list"; Some "--profile";
                credential self] in
  let write := [Some "aws"; Some "configure"; Some "--profile";
                credential self] in
  let input := access_key cred +:+ Py.nl +:+ secret_key cred +:+ Py.nl
               +:+ Py.nl +:+ Py.nl in
  let w1 := after_run w check None in
  let w2 := after_run w1 write (Some input) in
  match run_process (history w) check None with
  | Exited rc _ _ =>
      if rc =? 0 then AWS.configure_tools self w = (Ok tt, w1)
      else
        match run_process (history w1) write (Some input) with
        | Exited rc' out err =>
            if rc' =? 0 then AWS.configure_tools self w = (Ok tt, w2)
            else
              AWS.configure_tools self w
              = (Raise (CalledProcessError rc' write out err),
                 mkWorld (history w2)
                   (log w2 ++ [LogError ("Failed to configure AWS CLI profile: "
                                         +:+ err)])
                   (environ w2))
        | Missing msg =>
            AWS.configure_tools self w = (Raise (FileNotFoundError msg), w2)
        end
  | Missing msg =>
      AWS.configure_tools self w = (Raise (FileNotFoundError msg), w1)
  end.
Proof.
  intros Hcred check write input w1 w2.
  subst check write input w1 w2.
  unfold AWS.configure_tools, bind, lift_result, try_except, arun, ret, raise,
    write_log, modify, after_run, AWS.list_cmd, AWS.write_cmd,
    AWS.write_input.
  rewrite Hcred.
  destruct (run_process (history w) _ None) as [rc out err|msg]; simpl;
    [|done].
  destruct (rc =? 0); simpl; [done|].
  destruct (run_process _ _ (Some _)) as [rc' out' err'|msg']; simpl; [|done].
  by destruct (rc' =? 0).
Qed.

Lemma configure_tools_writes_once_if_needed_witness :
  @AWS.configure_tools Sample.machine Sample.juju
    (set_credential "admin" AWS.init) Sample.empty_world
  = (Ok tt,
     mkWorld
       [Ran [Some "aws"; Some "configure"; Some "list"; Some "--profile";
             Some "admin"] None;
        Ran [Some "aws"; Some "configure"; Some "--profile"; Some "admin"]
          (Some ("AKIDEXAMPLE" +:+ Py.nl +:+ "wJalrEXAMPLEKEY" +:+ Py.nl
                 +:+ Py.nl +:+ Py.nl))]
       [] []).
Proof.
  exact (@configure_tools_writes_once_if_needed Sample.machine Sample.juju
           (set_credential "admin" AWS.init)
           (mkCredential "AKIDEXAMPLE" "wJalrEXAMPLEKEY")
           Sample.empty_world eq_refl).
Defined.

(** ** [VSphere.get_datacenters] *)

Lemma fetches_app h h' : fetches (h ++ h') = (fetches h + fetches h')%nat.
Proof. unfold fetches. by rewrite List.filter_app, length_app. Qed.

(** With the list cached, [get_datacenters] returns it and touches
    nothing: no login, no fetch, whatever the API would answer. *)
Lemma get_datacenters_cached `{Juju} `{VSphereApi} (s : VSphere.St) dcs :
  VSphere._datacenters s.1 = Some dcs ->
  VSphere.get_datacenters s = (Ok dcs, s).
Proof.
  intros Hc. unfold VSphere.get_datacenters, bind, VSphere.self. simpl.
  by rewrite Hc.
Qed.


(** [login] fetches nothing and leaves the cache alone. *)
Lemma login_keeps_cache `{Juju} `{VSphereApi} (s : VSphere.St) :
  VSphere._datacenters (VSphere.login s).2.1 = VSphere._datacenters s.1
  /\ fetches (history (VSphere.login s).2.2) = fetches (history s.2).
Proof.
  destruct s as [me w].
  unfold VSphere.login, bind, VSphere.self, lift_result, try_except,
    VSphere.update_base, VSphere.run_client, modify, ret, raise. simpl.
  destruct (authenticated (VSphere.base me)); [done|].
  destruct (get_credential _ _ _) as [cred|e]; [|done]. simpl.
  destruct (client_login _ _) as [[]|e]; simpl.
  - by rewrite fetches_app, Nat.add_0_r.
  - destruct e; simpl; by rewrite fetches_app, Nat.add_0_r.
Qed.

(** A call that returns has fetched at most once and has cached what it
    returns. *)
Lemma get_datacenters_caches `{Juju} `{VSphereApi} (s s1 : VSphere.St) dcs :
  VSphere.get_datacenters s = (Ok dcs, s1) ->
  VSphere._datacenters s1.1 = Some dcs
  /\ (fetches (history s1.2) <= S (fetches (history s.2)))%nat
  /\ (VSphere._datacenters s.1 <> None -> s1 = s).
Proof.
  unfold VSphere.get_datacenters, bind at 1, VSphere.self. simpl.
  destruct (VSphere._datacenters s.1) as [cached|] eqn:Hc.
  { intros [= <- <-]. rewrite Hc. repeat split; auto. }
  intros Hrun.
  assert (exists s0, (fetches (history s0.2) = fetches (history s.2))
                     /\ (bind (VSphere.run_client ClientGetDatacenters
                                 client_get_datacenters)
                           (fun dcs => bind (VSphere.set_datacenters dcs)
                                         (fun _ => ret dcs))) s0
                        = (Ok dcs, s1)) as (s0 & Hf & Hrest).
  { unfold bind at 1 in Hrun.
    destruct (negb (authenticated (VSphere.base s.1))).
    - pose proof (login_keeps_cache s) as [_ Hl].
      destruct (VSphere.login s) as [[[]|e] s0]; [|done].
      exists s0. by split.
    - exists s. by split. }
  clear Hrun. unfold bind, VSphere.run_client, VSphere.set_datacenters,
    modify, ret in Hrest.
  destruct (client (VSphere.base s0.1)) as [c|]; [|done].
  destruct (client_get_datacenters _ c) as [d|e]; [|done].
  simpl in Hrest. injection Hrest as <- <-. simpl.
  split; [done|]. split; [|done].
  rewrite fetches_app, Hf. change (fetches [ClientGetDatacenters c]) with 1%nat.
  lia.
Qed.



(** ** [Localhost.is_server_compatible] *)

(** How the process decides the outcome of [query]: a missing binary gives
    [FileNotFoundError], a failed check [LocalhostError] around the
    [CalledProcessError], undecodable output [LocalhostJSONError], anything
    else the decoded value. *)
Lemma query_outcomes `{Processes} `{JsonLib} segment method w :
  let cmd := Some <$> Localhost.query_cmd segment method in
  match run_process (history w) cmd None with
  | Missing msg =>
      (Localhost.query segment method w).1 = Raise (FileNotFoundError msg)
  | Exited rc out err =>
      if arun_default_check && negb (rc =? 0)
      then (Localhost.query segment method w).1
           = Raise (LocalhostError (CalledProcessError rc cmd out err))
      else match json_loads out with
           | Some j => (Localhost.query segment method w).1 = Ok j
           | None => (Localhost.query segment method w).1
                     = Raise (LocalhostJSONError Localhost.json_error_message)
           end
  end.
Proof.
  unfold Localhost.query, try_except, bind, write_log, modify, arun, raise,
    ret; simpl.
  destruct (run_process _ _ _) as [rc out err|msg]; simpl; [|done].
  destruct (arun_default_check && negb (rc =? 0)); simpl; [done|].
  by destruct (json_loads out).
Qed.

Lemma init_minimum_support_version `{Versions} `{Processes} w0 self w1 :
  Localhost.init w0 = (Ok self, w1) ->
  Localhost.minimum_support_version self = parse_version "2.17".
Proof.
  unfold Localhost.init, bind, set_environ, modify, ret.
  destruct (path_exists _); by intros [= <- _].
Qed.

(** C10: for a provider built by [Localhost()], [is_server_compatible]
    does what its bare [query()] does to the world and then: returns
    [False] when the query raised [LocalhostError]; raises the same
    exception when the query raised anything else, in particular
    [LocalhostJSONError] or [FileNotFoundError]; and when the query returned
    a document whose [environment.server_version] is the string [v],
    returns whether [parse_version(v) <= parse_version('2.17')]. *)
Theorem is_server_compatible_outcomes `{Versions} `{Processes} `{JsonLib}
    (w0 w1 w : World) (self : Localhost.t) :
  Localhost.init w0 = (Ok self, w1) ->
  match Localhost.query "" "GET" w with
  | (Raise (LocalhostError cause), w') =>
      Localhost.is_server_compatible self w = (Ok false, w')
  | (Raise e, w') =>
      Localhost.is_server_compatible self w = (Raise e, w')
  | (Ok out, w') =>
      forall env v,
        Localhost.subscript out "environment" = Ok env ->
        Localhost.subscript env "server_version" = Ok (JStr v) ->
        Localhost.is_server_compatible self w
        = (Ok (ver_le (parse_version v) (parse_version "2.17")), w')
        /\ ((Localhost.is_server_compatible self w).1 = Ok true
            <-> ver_le (parse_version v) (parse_version "2.17") = true)
  end.
Proof.
  intros Hinit. apply init_minimum_support_version in Hinit.
  assert (Hrun : Localhost.is_server_compatible self w
                 = match Localhost.query "" "GET" w with
                   | (Ok out, w') =>
                       bind (lift_result (Localhost.subscript out "environment"))
                         (fun env =>
                            bind (lift_result
                                    (Localhost.subscript env "server_version"))
                              (fun server_ver =>
                                 match server_ver with
                                 | JStr v =>
                                     ret (ver_le (parse_version v)
                                            (Localhost.minimum_support_version
                                               self))
                                 | _ => raise TypeError
                                 end)) w'
                   | (Raise (LocalhostError _), w') => (Ok false, w')
                   | (Raise e, w') => (Raise e, w')
                   end).
  { unfold Localhost.is_server_compatible, try_except, bind.
    destruct (Localhost.query "" "GET" w) as [[out|e] w']; simpl; [done|].
    by destruct e. }
  rewrite Hrun.
  destruct (Localhost.query "" "GET" w) as [[out|e] w']; simpl.
  - intros env v Henv Hv. unfold bind, lift_result.
    rewrite Henv, Hv, Hinit. simpl. split; [done|].
    split; [by intros [= ->] | by intros ->].
  - by destruct e.
Qed.

Lemma is_server_compatible_outcomes_witness :
  exists self,
    @Localhost.init Sample.dotted Sample.machine Sample.empty_world
    = (Ok self, Sample.empty_world)
    /\ (@Localhost.is_server_compatible Sample.dotted Sample.machine
          Sample.decoder self Sample.empty_world).1 = Ok true.
Proof.
  eexists. split; [reflexivity|].
  pose proof (@is_server_compatible_outcomes Sample.dotted Sample.machine
                Sample.decoder Sample.empty_world Sample.empty_world
                Sample.empty_world _ eq_refl) as Hq.
  cbv in Hq.
  destruct (Hq _ "2.0.11" eq_refl eq_refl) as [_ Hiff].
  apply Hiff. reflexivity.
Defined.

(** ** The MAAS endpoint validator *)

Lemma http_prefix s :
  "http://" +:+ s
  = String "h" (String "t" (String "t" (String "p" (String ":"
      (String "/" (String "/" s)))))).
Proof. reflexivity. Qed.

Lemma append_assoc (a b c : string) : (a +:+ b) +:+ c = a +:+ (b +:+ c).
Proof. induction a; simpl; [done|]. by rewrite !append_cons, IHa. Qed.

Lemma append_empty_r (a : string) : a +:+ EmptyString = a.
Proof. induction a; [done|]. by rewrite append_cons, IHa. Qed.

Lemma plain_app a b : plain (a +:+ b) = plain a && plain b.
Proof.
  induction a as [|c a IH]; [done|].
  rewrite append_cons. unfold plain in *. simpl. rewrite IH.
  by rewrite andb_assoc.
Qed.

Lemma plain_no_char (c : ascii) s :
  plain_char c = false -> plain s = true -> Py.has_char c s = false.
Proof.
  intros Hc. induction s as [|a s IH]; [done|].
  unfold plain. simpl. intros [Ha Hs]%andb_true_iff.
  rewrite (IH Hs), orb_false_r.
  destruct (Ascii.eqb_spec a c) as [->|]; [congruence|done].
Qed.

Lemma plain_balanced s : plain s = true -> Urllib.brackets_unbalanced s = false.
Proof.
  intros Hs. unfold Urllib.brackets_unbalanced.
  by rewrite (plain_no_char "[" s), (plain_no_char "]" s).
Qed.

(** A plain network location is cut where it ends. *)
Lemma splitnetloc_plain nl rest :
  plain nl = true ->
  rest = EmptyString \/ (exists r, rest = String "/" r) ->
  Urllib.splitnetloc (nl +:+ rest) = (nl, rest).
Proof.
  intros Hnl Hrest. induction nl as [|c nl IH].
  - simpl. destruct Hrest as [->|[r ->]]; done.
  - revert Hnl. unfold plain. simpl. intros [Hc Hnl]%andb_true_iff.
    unfold plain_char in Hc. apply andb_true_iff in Hc as [Hc _].
    apply andb_true_iff in Hc as [Hc _]. apply negb_true_iff in Hc.
    rewrite Hc. by rewrite (IH Hnl).
Qed.

Lemma urlparse_http nl rest :
  plain nl = true ->
  rest = EmptyString \/ rest = "/MAAS" ->
  Urllib.urlparse ("http://" +:+ nl +:+ rest) EmptyString
  = Ok (Urllib.mkParse "http" nl rest "" "" "").
Proof.
  intros Hnl Hrest. rewrite http_prefix.
  unfold Urllib.urlparse, Urllib.urlsplit, Urllib.split_scheme. simpl.
  rewrite (splitnetloc_plain nl rest Hnl)
    by (destruct Hrest as [->| ->]; [by left | right; by eexists]).
  rewrite (plain_balanced nl Hnl).
  by destruct Hrest as [->| ->].
Qed.

(** Joining ['MAAS'] to a bare ['http://<netloc>'] appends ['/MAAS']. *)
Lemma urljoin_http nl :
  plain nl = true -> Urllib.nonempty nl = true ->
  Urllib.urljoin ("http://" +:+ nl) "MAAS" = Ok ("http://" +:+ nl +:+ "/MAAS").
Proof.
  intros Hnl Hne. unfold Urllib.urljoin.
  assert (Urllib.nonempty ("http://" +:+ nl) = true) as -> by done.
  simpl negb at 1 2. cbv iota.
  pose proof (urlparse_http nl EmptyString Hnl (or_introl eq_refl)) as Hb.
  rewrite append_empty_r in Hb. rewrite Hb.
  change (Urllib.urlparse "MAAS" (Urllib.scheme _))
    with (Ok (Urllib.mkParse "http" "" "MAAS" "" "" "")).
  simpl. unfold Urllib.urlunparse, Urllib.urlunsplit. simpl.
  rewrite Hne. simpl. by rewrite !append_cons, !append_empty_l.
Qed.


Lemma field_store frm k v fld :
  field frm k = Some fld ->
  field (store k v frm) k = Some (set_value (Some v) fld).
Proof.
  destruct frm as [l]. unfold field, store, update_field, fields. simpl.
  induction l as [|w l IH]; [done|]. simpl.
  destruct (String.eqb k (key w)) eqn:E; simpl.
  - intros [= ->]. by rewrite E.
  - intros Hf. rewrite E. by apply IH.
Qed.

Lemma holds_store frm k v v' :
  holds frm k v -> holds (store k v' frm) k (Some v').
Proof.
  intros (fld & Hf & _). exists (set_value (Some v') fld).
  split; [by apply field_store | done].
Qed.

(** The three ways the validator accepts an input. *)
Lemma endpoint_http `{HostSyntax} frm e url :
  holds frm "endpoint" (Some e) ->
  Py.startswith "http" e = true ->
  Urllib.urlparse e EmptyString = Ok url ->
  Urllib.nonempty (Urllib.netloc url) = true ->
  MAAS._has_correct_endpoint frm
  = if Py.contains "MAAS" (Urllib.path url) then (Ok (true, None), frm)
    else match Urllib.urljoin (Urllib.geturl url) "MAAS" with
         | Ok v => (Ok (true, None), store "endpoint" v frm)
         | Raise x => (Raise x, frm)
         end.
Proof.
  intros (fld & Hf & Hv) Hs Hu Hn.
  unfold MAAS._has_correct_endpoint, bind, get, lift_result.
  rewrite Hf, Hv, Hs, Hu, Hn. simpl.
  destruct (Py.contains "MAAS" (Urllib.path url)); simpl; [done|].
  unfold MAAS.store_joined, bind, lift_result, modify.
  by destruct (Urllib.urljoin _ _).
Qed.

Lemma endpoint_hostname `{HostSyntax} frm h :
  holds frm "endpoint" (Some h) ->
  Py.startswith "http" h = false ->
  is_valid_hostname h = true ->
  MAAS._has_correct_endpoint frm
  = match Urllib.urljoin ("http://" +:+ h +:+ ":5240") "MAAS" with
    | Ok v => (Ok (true, None), store "endpoint" v frm)
    | Raise x => (Raise x, frm)
    end.
Proof.
  intros (fld & Hf & Hv) Hs Hh.
  unfold MAAS._has_correct_endpoint, bind, get, lift_result.
  rewrite Hf, Hv, Hs, Hh.
  unfold MAAS.store_joined, bind, lift_result, modify.
  by destruct (Urllib.urljoin _ _).
Qed.

Lemma endpoint_ip `{HostSyntax} frm e ip port :
  holds frm "endpoint" (Some e) ->
  Py.startswith "http" e = false ->
  is_valid_hostname e = false ->
  MAAS.ip_and_port e = (ip, port) ->
  ip_address ip = true ->
  MAAS._has_correct_endpoint frm
  = match Urllib.urljoin ("http://" +:+ ip +:+ ":" +:+ port) "MAAS" with
    | Ok v => (Ok (true, None), store "endpoint" v frm)
    | Raise (ValueError _) =>
        (Ok (false, Some MAAS.endpoint_format_message), frm)
    | Raise x => (Raise x, frm)
    end.
Proof.
  intros (fld & Hf & Hv) Hs Hh Hip Hok.
  unfold MAAS._has_correct_endpoint, bind, get, lift_result.
  rewrite Hf, Hv, Hs, Hh.
  rewrite Hip, Hok.
  unfold try_except, MAAS.store_joined, bind, lift_result, modify, ret.
  destruct (Urllib.urljoin _ _) as [v|x]; [done|]. by destruct x.
Qed.

Lemma canonical_http nl :
  plain nl = true -> Urllib.nonempty nl = true ->
  canonical ("http://" +:+ nl +:+ "/MAAS") = true.
Proof.
  intros Hnl Hne. rewrite http_prefix. unfold canonical.
  rewrite (splitnetloc_plain nl "/MAAS" Hnl) by (right; by eexists).
  by rewrite Hne.
Qed.

(** Re-validating a canonical value accepts it and stores nothing. *)
Lemma endpoint_canonical_fixed `{HostSyntax} frm nl :
  holds frm "endpoint" (Some ("http://" +:+ nl +:+ "/MAAS")) ->
  plain nl = true -> Urllib.nonempty nl = true ->
  MAAS._has_correct_endpoint frm = (Ok (true, None), frm).
Proof.
  intros Hh Hnl Hne.
  by rewrite (endpoint_http frm _ _ Hh eq_refl
                (urlparse_http nl "/MAAS" Hnl (or_intror eq_refl)) Hne).
Qed.

(** The inputs the project's documentation lists: addresses, with and
    without a port, a hostname and a URL without path all end up with
    ['/MAAS'] appended; free text is rejected. *)
Lemma endpoint_examples :
  let run e := (@MAAS._has_correct_endpoint Sample.hosts
                  (Sample.maas_form (Some e) None)) in
  run "192.168.1.5"
  = (Ok (true, None), Sample.maas_form (Some "http://192.168.1.5:5240/MAAS") None)
  /\ run "192.168.1.5:1234"
     = (Ok (true, None),
        Sample.maas_form (Some "http://192.168.1.5:1234/MAAS") None)
  /\ run "maas.example.com"
     = (Ok (true, None),
        Sample.maas_form (Some "http://maas.example.com:5240/MAAS") None)
  /\ run "http://maas.example.com:5240"
     = (Ok (true, None),
        Sample.maas_form (Some "http://maas.example.com:5240/MAAS") None)
  /\ run "not an ip or host!!"
     = (Ok (false, Some MAAS.endpoint_format_message),
        Sample.maas_form (Some "not an ip or host!!") None).
Proof. repeat split; reflexivity. Qed.

(** Where the validator does normalise, for hosts, ports and network
    locations free of ['/'], ['?'], ['#'] and brackets.  An input that
    starts with ['http'], has a network location and has ['MAAS'] in its
    path is accepted and nothing is stored.  ['http://<netloc>'] is
    rewritten to ['http://<netloc>/MAAS'].  An input that does not start
    with ['http'] and is a valid hostname [h] is rewritten to
    ['http://h:5240/MAAS'].  An input that does not start with ['http'], is
    no valid hostname and splits into an address [ip_address] accepts and
    a port is rewritten to ['http://<ip>:<port>/MAAS'].  These stored
    values are canonical, and validating a canonical value
    ['http://<netloc>/MAAS'] again, such as ['http://h:5240/MAAS'],
    succeeds and leaves the form unchanged. *)
Lemma endpoint_validation_normalizes `{HostSyntax} (frm : Form)
    (e : string) :
  holds frm "endpoint" (Some e) ->
  (forall url,
     Py.startswith "http" e = true ->
     Urllib.urlparse e EmptyString = Ok url ->
     Urllib.nonempty (Urllib.netloc url) = true ->
     Py.contains "MAAS" (Urllib.path url) = true ->
     MAAS._has_correct_endpoint frm = (Ok (true, None), frm))
  /\ (forall nl,
        e = "http://" +:+ nl -> plain nl = true ->
        Urllib.nonempty nl = true ->
        MAAS._has_correct_endpoint frm
        = (Ok (true, None), store "endpoint" ("http://" +:+ nl +:+ "/MAAS") frm))
  /\ (Py.startswith "http" e = false -> is_valid_hostname e = true ->
      plain e = true ->
      MAAS._has_correct_endpoint frm
      = (Ok (true, None),
         store "endpoint" ("http://" +:+ e +:+ ":5240" +:+ "/MAAS") frm))
  /\ (forall ip port,
        Py.startswith "http" e = false -> is_valid_hostname e = false ->
        MAAS.ip_and_port e = (ip, port) -> ip_address ip = true ->
        plain ip = true -> plain port = true ->
        MAAS._has_correct_endpoint frm
        = (Ok (true, None),
           store "endpoint" ("http://" +:+ ip +:+ ":" +:+ port +:+ "/MAAS")
             frm))
  /\ (forall nl,
        plain nl = true -> Urllib.nonempty nl = true ->
        canonical ("http://" +:+ nl +:+ "/MAAS") = true
        /\ (e = "http://" +:+ nl +:+ "/MAAS" ->
            MAAS._has_correct_endpoint frm = (Ok (true, None), frm))
        /\ MAAS._has_correct_endpoint
             (store "endpoint" ("http://" +:+ nl +:+ "/MAAS") frm)
           = (Ok (true, None),
              store "endpoint" ("http://" +:+ nl +:+ "/MAAS") frm)).
Proof.
  intros Hh. split; [|split; [|split; [|split]]].
  - intros url Hs Hu Hn Hm. by rewrite (endpoint_http frm e url Hh Hs Hu Hn), Hm.
  - intros nl -> Hnl Hne.
    pose proof (urlparse_http nl EmptyString Hnl (or_introl eq_refl)) as Hu.
    rewrite append_empty_r in Hu.
    rewrite (endpoint_http frm _ _ Hh eq_refl Hu Hne). simpl.
    assert (Urllib.geturl (Urllib.mkParse "http" nl "" "" "" "")
            = "http://" +:+ nl) as ->.
    { unfold Urllib.geturl, Urllib.urlunparse, Urllib.urlunsplit. simpl.
      rewrite Hne. simpl. by rewrite append_empty_r. }
    by rewrite (urljoin_http nl Hnl Hne).
  - intros Hs Hv Hp. rewrite (endpoint_hostname frm e Hh Hs Hv).
    rewrite (urljoin_http (e +:+ ":5240")).
    + by rewrite append_assoc.
    + by rewrite plain_app, Hp.
    + by destruct e.
  - intros ip port Hs Hv Hip Hok Hpi Hpp.
    rewrite (endpoint_ip frm e ip port Hh Hs Hv Hip Hok).
    rewrite (urljoin_http (ip +:+ ":" +:+ port)).
    + by rewrite !append_assoc.
    + by rewrite !plain_app, Hpi, Hpp.
    + by destruct ip.
  - intros nl Hnl Hne. split; [by apply canonical_http|]. split.
    + intros ->. by apply (endpoint_canonical_fixed frm nl).
    + apply (endpoint_canonical_fixed _ nl); [|done..].
      by eapply holds_store.
Qed.

Lemma endpoint_validation_normalizes_witness :
  let frm := Sample.maas_form (Some "http://h:5240/MAAS") None in
  holds frm "endpoint" (Some "http://h:5240/MAAS")
  /\ @MAAS._has_correct_endpoint Sample.hosts frm = (Ok (true, None), frm)
  /\ @MAAS._has_correct_endpoint Sample.hosts
       (Sample.maas_form (Some "maas.example.com") None)
     = (Ok (true, None),
        Sample.maas_form (Some "http://maas.example.com:5240/MAAS") None).
Proof.
  intros frm.
  assert (Hh : holds frm "endpoint" (Some "http://h:5240/MAAS")).
  { eexists. split; reflexivity. }
  split; [exact Hh|]. split.
  - destruct (@endpoint_validation_normalizes Sample.hosts frm _ Hh)
      as (_ & _ & _ & _ & Hfix).
    destruct (Hfix "h:5240" eq_refl eq_refl) as (_ & Hsame & _).
    exact (Hsame eq_refl).
  - assert (Hm : holds (Sample.maas_form (Some "maas.example.com") None)
                   "endpoint" (Some "maas.example.com")).
    { eexists. split; reflexivity. }
    destruct (@endpoint_validation_normalizes Sample.hosts _ _ Hm)
      as (_ & _ & Hhost & _).
    exact (Hhost eq_refl eq_refl eq_refl).
Defined.

(** C1 (the code departs from the claim): the URL branch tests
    [endpoint.startswith('http')] and ['MAAS' not in url.path] where a
    scheme and a path ending in ['/MAAS'] are meant, and it joins ['MAAS']
    as a relative reference.  So, for every hostname and address syntax
    and whatever the API key: ['http://h:5240/MAAS/api/2.0'] and
    ['http://h/xMAASx'] succeed with the stored value untouched, although
    neither ends in ['/MAAS']; ['http://h:5240/api/v2'] succeeds with the
    last path segment replaced, the value stored being
    ['http://h:5240/api/MAAS']; and ['httpx://foo'] succeeds with the
    value ['MAAS'] stored, without scheme or host.  None of these stored
    values is of the form ['http://host:port/MAAS'].  The hostname
    ['httpserver.example.com'] is taken for a URL and rejected, even where
    it is a valid hostname. *)
Theorem endpoint_success_not_canonical `{HostSyntax} (api_key : option string) :
  let run e := MAAS._has_correct_endpoint (Sample.maas_form (Some e) api_key) in
  let stored v := Sample.maas_form (Some v) api_key in
  run "http://h:5240/MAAS/api/2.0"
  = (Ok (true, None), stored "http://h:5240/MAAS/api/2.0")
  /\ run "http://h/xMAASx" = (Ok (true, None), stored "http://h/xMAASx")
  /\ run "http://h:5240/api/v2"
     = (Ok (true, None), stored "http://h:5240/api/MAAS")
  /\ run "httpx://foo" = (Ok (true, None), stored "MAAS")
  /\ run "httpserver.example.com"
     = (Ok (false, Some MAAS.endpoint_netloc_message),
        stored "httpserver.example.com")
  /\ (forall v, value <$> field (stored v) "endpoint" = Some (Some v))
  /\ Forall (fun v => canonical v = false)
       ["http://h:5240/MAAS/api/2.0"; "http://h/xMAASx";
        "http://h:5240/api/MAAS"; "MAAS"]
  /\ Forall (fun v => ends_with "/MAAS" v = false)
       ["http://h:5240/MAAS/api/2.0"; "http://h/xMAASx"; "MAAS"].
Proof.
  intros run stored.
  split; [reflexivity|]. split; [reflexivity|]. split; [reflexivity|].
  split; [reflexivity|]. split; [reflexivity|].
  split; [intros v; reflexivity|].
  split; repeat constructor.
Qed.

(** ** [Localhost.get_storage_pools] and [get_networks] *)

(** C2 (the code departs from the claim): LXD lists the pools [zfs] and
    [default.bak].  [get_storage_pools] keys each pool by
    [Path(pool).stem], which drops the suffix of [default.bak]: the pool
    ends up under the key ['default'] and is moved to the front, although
    no pool is named ['default']. *)
Theorem storage_pool_keyed_by_stem :
  (@Localhost.query Sample.machine Sample.decoder "storage-pools" "GET"
     Sample.empty_world).1
  = Ok (JList [JStr "/1.0/storage-pools/zfs";
               JStr "/1.0/storage-pools/default.bak"])
  /\ (@Localhost.get_storage_pools Sample.machine Sample.decoder
        Sample.empty_world).1
     = Ok [(JStr "default", JDict [("name", JStr "default.bak")]);
           (JStr "zfs", JDict [("name", JStr "zfs")])].
Proof. split; vm_compute; reflexivity. Qed.

(** *** Moving one key to the front keeps the order of the others *)

Lemma setitem_fresh k v d :
  fresh k d -> OrderedDict.setitem (JStr k) v d = d ++ [(JStr k, v)].
Proof.
  induction 1 as [|[k' v'] d Hk _ IH]; [done|]. simpl in *.
  by rewrite Hk, IH.
Qed.

Lemma getitem_fresh k v d :
  fresh k d ->
  OrderedDict.getitem (JStr k) (d ++ [(JStr k, v)]) = Some (JStr k, v).
Proof.
  induction 1 as [|[k' v'] d Hk _ IH]; simpl in *.
  - by rewrite String.eqb_refl.
  - by rewrite Hk.
Qed.

Lemma delitem_fresh k v d :
  fresh k d -> OrderedDict.delitem (JStr k) (d ++ [(JStr k, v)]) = d.
Proof.
  induction 1 as [|[k' v'] d Hk _ IH]; simpl in *.
  - by rewrite String.eqb_refl.
  - by rewrite Hk, IH.
Qed.

Lemma front_fresh special k es :
  k ∉ es.*1 -> fresh k (front special es).
Proof.
  intros Hk. unfold fresh, front. rewrite Forall_fmap, Forall_app.
  assert (Hall : Forall (fun e : string * json => e.1 <> k) es).
  { apply Forall_forall. intros e He <-. apply Hk.
    apply list_elem_of_fmap. by exists e. }
  split; apply Forall_forall; intros e He; simpl;
    apply list_elem_of_In, List.filter_In in He as [He _];
    apply list_elem_of_In in He;
    rewrite Forall_forall in Hall; specialize (Hall e He);
    by apply String.eqb_neq.
Qed.

Lemma filter_none {A} (p : A -> bool) (l : list A) :
  Forall (fun x => p x = false) l -> List.filter p l = [].
Proof. induction 1 as [|x l Hx _ IH]; simpl; [done|]. by rewrite Hx. Qed.

(** One round of the loop extends the specification by one entry. *)
Lemma put_front_step special pre e :
  e.1 ∉ pre.*1 ->
  put_front special (front special pre) e = Ok (front special (pre ++ [e])).
Proof.
  destruct e as [k v]. simpl. intros Hk. unfold put_front. simpl.
  rewrite (setitem_fresh _ _ _ (front_fresh special _ _ Hk)).
  destruct (String.eqb_spec k special) as [->|He].
  - unfold OrderedDict.move_to_front.
    rewrite (getitem_fresh _ _ _ (front_fresh special _ _ Hk)).
    rewrite (delitem_fresh _ _ _ (front_fresh special _ _ Hk)).
    f_equal. unfold front. rewrite !List.filter_app. simpl.
    assert (Hnone : Forall (fun x : string * json =>
                              String.eqb x.1 special = false) pre).
    { apply Forall_forall. intros x Hx. apply String.eqb_neq. intros Hxs.
      apply Hk. apply list_elem_of_fmap. by exists x. }
    rewrite (filter_none _ pre Hnone).
    rewrite String.eqb_refl. simpl. by rewrite app_nil_r.
  - f_equal. unfold front. rewrite !List.filter_app. simpl.
    apply String.eqb_neq in He. rewrite He. simpl.
    by rewrite app_nil_r, !fmap_app, <- app_assoc.
Qed.


(** The loop moves the special key to the front and keeps the others in
    order, when no key comes twice. *)
Lemma put_front_fold special es :
  NoDup es.*1 ->
  result_fold (put_front special) es [] = Ok (front special es).
Proof.
  intros Hnd.
  enough (Hgen : forall pre, NoDup (pre ++ es).*1 ->
            result_fold (put_front special) es (front special pre)
            = Ok (front special (pre ++ es))) by exact (Hgen [] Hnd).
  clear Hnd. induction es as [|e es IH]; intros pre Hnd; simpl.
  - by rewrite app_nil_r.
  - rewrite fmap_app, fmap_cons in Hnd.
    apply NoDup_app in Hnd as (Hpre & Hdisj & Hes).
    rewrite put_front_step.
    + rewrite IH; [by rewrite <- app_assoc|].
      rewrite <- app_assoc. simpl. rewrite fmap_app, fmap_cons.
      apply NoDup_app. done.
    + intros Hin. apply (Hdisj _ Hin). left.
Qed.

(** *** The loops, given the answers to their queries *)

(** A loop whose rounds query and then compute returns what the
    computation returns on the answers, once all the queries are
    answered. *)
Lemma for_fold_answers {S A B C} (f : A -> M S C)
    (g : B -> A -> C -> result B) (body : B -> A -> M S B) l :
  (forall b x s, body b x s = bind (f x) (fun y => lift_result (g b x y)) s) ->
  forall ys acc d w w',
    map_m f l w = (Ok ys, w') ->
    result_fold (fun b xy => g b xy.1 xy.2) (zip l ys) acc = Ok d ->
    for_fold l acc body w = (Ok d, w').
Proof.
  intros Hbody. induction l as [|x l IH]; intros ys acc d w w'; simpl.
  - unfold ret. by intros [= <- <-] [= <-].
  - intros Hm Hf. unfold bind in Hm.
    destruct (f x w) as [[y|e] w1] eqn:Hx; [|done].
    destruct (map_m f l w1) as [[ys'|e] w2] eqn:Hrest; [|done].
    unfold ret in Hm. injection Hm as <- <-. simpl in Hf.
    unfold bind at 1. rewrite Hbody. unfold bind at 1. rewrite Hx.
    unfold lift_result.
    destruct (g acc x y) as [acc1|e]; [|done].
    by apply (IH ys' acc1 d w1 w2).
Qed.

Lemma map_m_length {S A B} (f : A -> M S B) l :
  forall ys w w', map_m f l w = (Ok ys, w') -> length ys = length l.
Proof.
  induction l as [|x l IH]; intros ys w w'; simpl.
  - unfold ret. by intros [= <- _].
  - unfold bind at 1 2. destruct (f x w) as [[y|e] w1]; [|done].
    destruct (map_m f l w1) as [[ys'|e] w2] eqn:Hrest; [|done].
    unfold ret. intros [= <- _]. simpl. f_equal. by eapply IH.
Qed.

Lemma add_network_put_front acc info :
  network_doc info ->
  Localhost.add_network acc info
  = match bridge_name info with
    | Some n => put_front "lxdbr0" acc (n, info)
    | None => Ok acc
    end.
Proof.
  intros (ty & Hty & Hname). unfold Localhost.add_network, bridge_name in *.
  rewrite Hty in *. destruct (Localhost.is_str ty "bridge"); [|done].
  destruct (Hname eq_refl) as [n Hn].
  destruct (Localhost.subscript info "name") as [[]|]; done.
Qed.

Lemma fold_networks l : forall infos acc,
  length l = length infos ->
  Forall network_doc infos ->
  result_fold (fun b (xy : json * json) => Localhost.add_network b xy.2)
    (zip l infos) acc
  = result_fold (put_front "lxdbr0") (bridge_entries infos) acc.
Proof.
  induction l as [|x l IH]; intros [|info infos] acc Hlen Hdocs; try done.
  simpl. inversion Hdocs as [|? ? Hdoc Hdocs']; subst.
  rewrite (add_network_put_front acc info Hdoc).
  unfold bridge_entries. simpl. fold (bridge_entries infos).
  destruct (bridge_name info) as [n|]; simpl.
  - destruct (put_front "lxdbr0" acc (n, info)); [|done].
    apply IH; [by injection Hlen | done].
  - apply IH; [by injection Hlen | done].
Qed.

Lemma fold_pools ps : forall infos acc,
  result_fold
    (fun b (xy : json * json) =>
       match xy.1 with
       | JStr p => Localhost.add_pool b p xy.2
       | _ => Raise TypeError
       end)
    (zip (JStr <$> ps) infos) acc
  = result_fold (put_front "default") (pool_entries (zip ps infos)) acc.
Proof.
  induction ps as [|p ps IH]; intros [|info infos] acc; try done.
  simpl. change (Localhost.add_pool acc p info)
    with (put_front "default" acc (Pathlib.stem (Pathlib.parse p), info)).
  destruct (put_front _ _ _); [apply IH|done].
Qed.

(** [get_networks], given what LXD answers: with the list [nets] for
    ['networks'] and the documents [infos] for its items, bridges named by
    distinct strings, the method returns the bridges keyed by name, the
    bridge ['lxdbr0'] first if there is one, the others in the order of the
    answers. *)
Lemma get_networks_front `{Processes} `{JsonLib} w networks w1 nets infos w' :
  Localhost.query "networks" "GET" w = (Ok networks, w1) ->
  Localhost.iterate networks = Ok nets ->
  map_m Localhost.query_item nets w1 = (Ok infos, w') ->
  Forall network_doc infos ->
  NoDup (bridge_entries infos).*1 ->
  Localhost.get_networks w
  = (Ok (front "lxdbr0" (bridge_entries infos)), w').
Proof.
  intros Hq Hit Hmap Hdocs Hnd.
  unfold Localhost.get_networks, bind at 1. rewrite Hq.
  unfold bind at 1, lift_result at 1. rewrite Hit.
  apply (for_fold_answers Localhost.query_item
           (fun b _ info => Localhost.add_network b info) _ nets
           (fun _ _ _ => eq_refl) infos); [done|].
  rewrite fold_networks; [|by rewrite (map_m_length _ _ _ _ _ Hmap)|done].
  by apply put_front_fold.
Qed.

Lemma map_m_fmap {S A B C} (f : B -> M S C) (g : A -> B) l :
  forall w, map_m f (g <$> l) w = map_m (fun x => f (g x)) l w.
Proof.
  induction l as [|x l IH]; intros w; simpl; [done|].
  unfold bind. destruct (f (g x) w) as [[y|e] w1]; [|done]. by rewrite IH.
Qed.

(** [get_storage_pools], given what LXD answers: with the paths [ps] for
    ['storage-pools'] and the documents [infos] for them, the stems of the
    paths distinct, the method returns the documents keyed by the stem of
    their path, the key ['default'] first if there is one, the others in
    the order of the answers. *)
Lemma get_storage_pools_front `{Processes} `{JsonLib} w pools w1 ps infos w' :
  Localhost.query "storage-pools" "GET" w = (Ok pools, w1) ->
  Localhost.iterate pools = Ok (JStr <$> ps) ->
  map_m (fun p => Localhost.query p "GET") ps w1 = (Ok infos, w') ->
  NoDup (pool_entries (zip ps infos)).*1 ->
  Localhost.get_storage_pools w
  = (Ok (front "default" (pool_entries (zip ps infos))), w').
Proof.
  intros Hq Hit Hmap Hnd.
  unfold Localhost.get_storage_pools, bind at 1. rewrite Hq.
  unfold bind at 1, lift_result at 1. rewrite Hit.
  apply (for_fold_answers
           (fun pool => match pool with
                        | JStr p => Localhost.query p "GET"
                        | _ => raise TypeError
                        end)
           (fun b pool info => match pool with
                               | JStr p => Localhost.add_pool b p info
                               | _ => Raise TypeError
                               end) _ (JStr <$> ps)) with (ys := infos).
  - intros b pool st. by destruct pool.
  - by rewrite map_m_fmap.
  - rewrite fold_pools. by apply put_front_fold.
Qed.

(** * Further properties of the providers *)

(** ** Building a form and looking a field up *)











(** ** [BaseProvider.is_valid] on forms without validators *)

Lemma alter_middle {A} (g : A -> A) (pre rest : list A) (x : A) :
  alter g (length pre) (pre ++ x :: rest) = pre ++ g x :: rest.
Proof. induction pre as [|y pre IH]; [done|]. by f_equal/=. Qed.

Lemma validate_plain_field call (pre rest : list Field) (f : Field) :
  validator f = None ->
  validate call (length pre) (mkForm (pre ++ f :: rest))
  = (Ok (passes f), mkForm (pre ++ mark f :: rest)).
Proof.
  intros Hv. unfold validate, bind, modify, get, ret, update_at, fields.
  simpl. rewrite alter_middle, list_lookup_middle by done. simpl.
  rewrite Hv. unfold mark, passes, value. simpl.
  destruct (required f && negb (Py.truthy (widget_value (widget f)))); simpl.
  - by rewrite alter_middle.
  - done.
Qed.

(** The loop of [is_valid], started with results already collected. *)
Lemma is_valid_loop_bind `{HostSyntax} (l : list nat)
    (acc : M Form (list bool)) (s : Form) :
  fold_left
    (fun (acc : M Form (list bool)) i =>
       validations <- acc ;;
       v <- validate MAAS.call i ;;
       ret (validations ++ [v])) l acc s
  = match acc s with
    | (Ok vs, s') =>
        fold_left
          (fun (acc : M Form (list bool)) i =>
             validations <- acc ;;
             v <- validate MAAS.call i ;;
             ret (validations ++ [v])) l (ret vs) s'
    | (Raise e, s') => (Raise e, s')
    end.
Proof.
  revert acc s. induction l as [|i l IH]; intros acc s; simpl.
  - by destruct (acc s) as [[vs|e] s'].
  - rewrite IH. destruct (acc s) as [[vs|e] s'] eqn:Hacc.
    + rewrite (IH _ s'). unfold bind at 1 4. by rewrite Hacc.
    + unfold bind at 1. by rewrite Hacc.
Qed.

Lemma is_valid_loop_plain `{HostSyntax} (rest : list Field) :
  Forall (fun f => validator f = None) rest ->
  forall pre vs,
    fold_left
      (fun (acc : M Form (list bool)) i =>
         validations <- acc ;;
         v <- validate MAAS.call i ;;
         ret (validations ++ [v]))
      (seq (length pre) (length rest)) (ret vs) (mkForm (pre ++ rest))
    = (Ok (vs ++ (passes <$> rest)), mkForm (pre ++ (mark <$> rest))).
Proof.
  induction 1 as [|f rest Hf _ IH]; intros pre vs; simpl.
  - by rewrite !app_nil_r.
  - rewrite is_valid_loop_bind.
    assert (Hstep :
      (validations <- ret vs ;;
       v <- validate MAAS.call (length pre) ;;
       ret (validations ++ [v])) (mkForm (pre ++ f :: rest))
      = (Ok (vs ++ [passes f]), mkForm (pre ++ mark f :: rest))).
    { unfold bind, ret. by rewrite (validate_plain_field _ pre rest f Hf). }
    rewrite Hstep.
    specialize (IH (pre ++ [mark f]) (vs ++ [passes f])).
    rewrite length_app, Nat.add_1_r, <- !app_assoc in IH. simpl in IH.
    exact IH.
Qed.

(** On a provider whose form, built by [Form], binds no validator:
    [is_valid] raises [TypeError] and changes nothing when a key of the
    form normalises to ['fields'], the field bound under that name hiding
    the method.  Otherwise it never raises and validates every field
    without stopping at the first failure: it returns [True] exactly when
    every required field holds a truthy value, and it leaves on every
    field the error text of that field's own check,
    ['This field is required and cannot be empty.'] or the empty text;
    nothing else changes on a field, and nothing else on the provider. *)
Theorem is_valid_checks_every_field `{HostSyntax} (p : BaseProvider)
    (frm : Form) :
  form p = Some frm ->
  built frm ->
  Forall (fun f => validator f = None) (fields frm) ->
  (binds "fields" frm = true -> is_valid p = (Raise TypeError, p))
  /\ (binds "fields" frm = false ->
      exists frm',
        is_valid p
        = (Ok (forallb (fun f => negb (required f
                                       && negb (Py.truthy (value f))))
                 (fields frm)),
           set_form frm' p)
        /\ length (fields frm') = length (fields frm)
        /\ (forall i f, fields frm !! i = Some f ->
              exists f',
                fields frm' !! i = Some f'
                /\ error f'
                   = Some (if required f && negb (Py.truthy (value f))
                           then "This field is required and cannot be empty."
                           else EmptyString)
                /\ same_but_error f f'))
  /\ (forallb (fun f => negb (required f && negb (Py.truthy (value f))))
        (fields frm) = true
      <-> forall f, f ∈ fields frm -> required f = true ->
                    Py.truthy (value f) = true).
Proof.
  intros Hform _ Hplain. split; [|split].
  - intros Hb. unfold is_valid, bind at 1, get. rewrite Hform.
    unfold bind at 1, lift_result, call_fields. by rewrite Hb.
  - intros Hb. exists (mkForm (mark <$> fields frm)). split; [|split].
    + unfold is_valid, bind at 1, get. rewrite Hform.
      unfold bind at 1, lift_result at 1, call_fields. rewrite Hb.
      unfold bind, zoom. rewrite Hform. simpl.
      destruct frm as [l]. unfold fields in *. simpl in *.
      pose proof (is_valid_loop_plain l Hplain [] []) as Hloop.
      simpl in Hloop. unfold bind in Hloop. rewrite Hloop. unfold ret. simpl.
      f_equal. f_equal. clear. induction l as [|f l IHl]; [done|].
      simpl. by rewrite <- IHl.
    + unfold fields. simpl. by rewrite length_fmap.
    + intros i f Hi. exists (mark f). unfold fields in *. simpl.
      rewrite list_lookup_fmap, Hi. split; [done|]. split; [|done].
      unfold mark, passes. simpl.
      by destruct (required f && negb (Py.truthy (value f))).
  - rewrite forallb_forall. split.
    + intros Hall f Hf Hreq. apply list_elem_of_In, Hall in Hf.
      rewrite Hreq in Hf. simpl in Hf.
      by rewrite negb_involutive in Hf.
    + intros Hall f Hf. apply list_elem_of_In in Hf.
      destruct (required f) eqn:Hreq; [|done]. simpl.
      by rewrite (Hall f Hf Hreq).
Qed.

Lemma is_valid_checks_every_field_witness :
  let filled := set_value (Some "AKIDEXAMPLE")
                  (text_field "AWS Access Key" "access-key") in
  let frm := mkForm [filled; text_field "AWS Secret Key" "secret-key"] in
  built frm
  /\ binds "fields" frm = false
  /\ exists frm',
       @is_valid Sample.hosts (set_form frm AWS.init)
       = (Ok false, set_form frm' AWS.init)
       /\ (error <$> fields frm')
          = [Some EmptyString;
             Some "This field is required and cannot be empty."].
Proof.
  intros filled frm. split; [reflexivity|]. split; [reflexivity|].
  assert (Hplain : Forall (fun f => validator f = None) (fields frm)).
  { repeat constructor. }
  destruct (@is_valid_checks_every_field Sample.hosts
              (set_form frm AWS.init) frm eq_refl eq_refl Hplain)
    as (_ & Hrun & _).
  destruct (Hrun eq_refl) as (frm' & Hvalid & Hlen & Hat).
  exists frm'. split; [exact Hvalid|].
  destruct (Hat 0%nat _ eq_refl) as (f0 & H0 & He0 & _).
  destruct (Hat 1%nat _ eq_refl) as (f1 & H1 & He1 & _).
  destruct frm' as [[|g0 [|g1 [|g2 l]]]]; try discriminate Hlen.
  unfold fields in *. simpl in *.
  injection H0 as ->. injection H1 as ->. by rewrite He0, He1.
Defined.

(** ** [BaseProvider.save_form] *)




(** The loop of [save_form] over fields whose names [setattr] accepts, and
    its end at the first name it refuses. *)
Lemma save_form_loop (l : list Field) o :
  Forall (fun f => provider_refuses (normalize_key (key f)) = None) l ->
  for_fold l tt
    (fun _ f =>
       self <- get ;;
       self' <- lift_result
                  (setattr (normalize_key (key f)) (value f) self) ;;
       put self') o
  = (Ok tt,
     fold_left (fun o f => bind_attr (normalize_key (key f)) (value f) o) l o).
Proof.
  intros Hall. revert o.
  induction Hall as [|f l Hf _ IH]; intros o; [done|]. simpl.
  unfold bind at 1. unfold bind at 1, get at 1.
  unfold bind at 1, lift_result at 1, setattr at 1. rewrite Hf.
  unfold put at 1. apply IH.
Qed.








(** ** [load_schema] over the whole registry *)

(** The cloud type the adapter registered under an identifier carries:
    the identifier itself, except for the two aliases. *)
Lemma load_schema_known `{Versions} `{Processes} (cloud : string) (w : World) :
  cloud ∈ Schema.*1 ->
  exists a w',
    load_schema cloud w = (Ok a, w')
    /\ (cloud, class_of a) ∈ Schema
    /\ history w' = history w /\ log w' = log w
    /\ cloud_type (base_of a)
       = Some (if String.eqb cloud "rackspace" then "openstack"
               else if String.eqb cloud "lxd" then "localhost" else cloud)
    /\ is_Some (auth_type (base_of a))
    /\ (class_of a <> Localhost_ -> w' = w /\ is_Some (form (base_of a)))
    /\ (class_of a = Localhost_ -> form (base_of a) = None).
Proof.
  intros Hin. unfold Schema in Hin. simpl in Hin.
  repeat (apply elem_of_cons in Hin as [->|Hin]);
    try (by apply elem_of_nil in Hin);
    try (eexists _, w; split; [reflexivity|];
         split; [unfold Schema; simpl; set_solver|];
         repeat split; try done; by eexists).
  all: unfold load_schema, Schema, construct, Localhost.init, bind,
         set_environ, modify, ret; simpl.
  all: destruct (path_exists _); eexists _, _; (split; [reflexivity|]);
         simpl; (split; [set_solver|]); repeat split; try done; by eexists.
Qed.

Lemma load_schema_unknown `{Versions} `{Processes} (cloud : string) (w : World) :
  cloud ∉ Schema.*1 ->
  load_schema cloud w = (Raise (SchemaError cloud), w).
Proof.
  intros Hout. unfold load_schema, Schema in *. simpl in *.
  repeat match goal with
         | |- context [String.eqb cloud ?s] =>
             destruct (String.eqb_spec cloud s) as [->|];
             [exfalso; apply Hout; set_solver|]
         end.
  done.
Qed.

(** [load_schema] succeeds exactly on the twelve identifiers of the
    registry.  It then returns an instance of the class registered under
    the identifier, whose cloud type is the identifier itself except for
    the aliases ['rackspace'] (an ['openstack'] cloud) and ['lxd'] (a
    ['localhost'] cloud); it starts no process and writes no log line;
    every class but [Localhost] comes with a form and leaves the world
    untouched, while a [Localhost] provider has no form.  On any other
    identifier it raises [SchemaError] with that identifier and changes
    nothing. *)
Theorem load_schema_registry `{Versions} `{Processes} (cloud : string)
    (w : World) :
  (cloud ∈ Schema.*1 ->
   exists a w',
     load_schema cloud w = (Ok a, w')
     /\ (cloud, class_of a) ∈ Schema
     /\ history w' = history w /\ log w' = log w
     /\ cloud_type (base_of a)
        = Some (if String.eqb cloud "rackspace" then "openstack"
                else if String.eqb cloud "lxd" then "localhost" else cloud)
     /\ is_Some (auth_type (base_of a))
     /\ (class_of a <> Localhost_ -> w' = w /\ is_Some (form (base_of a)))
     /\ (class_of a = Localhost_ -> form (base_of a) = None))
  /\ (cloud ∉ Schema.*1 ->
      load_schema cloud w = (Raise (SchemaError cloud), w))
  /\ ((exists a w', load_schema cloud w = (Ok a, w')) <-> cloud ∈ Schema.*1).
Proof.
  split; [apply load_schema_known|]. split; [apply load_schema_unknown|].
  split.
  - intros (a & w' & Hrun). destruct (decide (cloud ∈ Schema.*1)); [done|].
    by rewrite load_schema_unknown in Hrun.
  - intros Hin. destruct (load_schema_known cloud w Hin) as (a & w' & Hrun & _).
    by exists a, w'.
Qed.

(** ** The outcomes of [Localhost.query] *)

(** Every call of [query] writes the debug line, starts exactly one
    process and leaves the environment alone.  A missing binary raises the
    same [FileNotFoundError] after logging it; a failed check raises
    [LocalhostError] around the [CalledProcessError] after logging that;
    output that is not JSON raises [LocalhostJSONError] after logging its
    message; otherwise the decoded document is returned and nothing more is
    logged.  [is_server_available] is a bare query with nothing added. *)
Theorem query_failure_taxonomy `{Processes} `{JsonLib}
    (segment method : string) (w : World) :
  let cmd := Some <$> Localhost.query_cmd segment method in
  let debug := LogDebug ("LXD query cmd: "
                         +:+ Py.join " " (Localhost.query_cmd segment method)) in
  let after l := mkWorld (history w ++ [Ran cmd None]) (log w ++ debug :: l)
                   (environ w) in
  match run_process (history w) cmd None with
  | Missing msg =>
      Localhost.query segment method w
      = (Raise (FileNotFoundError msg),
         after [LogErrorExn (FileNotFoundError msg)])
  | Exited rc out err =>
      if arun_default_check && negb (rc =? 0)
      then Localhost.query segment method w
           = (Raise (LocalhostError (CalledProcessError rc cmd out err)),
              after [LogErrorExn (CalledProcessError rc cmd out err)])
      else match json_loads out with
           | Some j => Localhost.query segment method w = (Ok j, after [])
           | None =>
               Localhost.query segment method w
               = (Raise (LocalhostJSONError Localhost.json_error_message),
                  after [LogError Localhost.json_error_message])
           end
  end
  /\ Localhost.is_server_available w = Localhost.query "" "GET" w.
Proof.
  intros cmd debug after. subst cmd debug after. split.
  - unfold Localhost.query, try_except, bind, write_log, modify, arun, raise,
      ret, record_event; simpl.
    destruct (run_process _ _ _) as [rc out err|msg]; simpl.
    + destruct (arun_default_check && negb (rc =? 0)); simpl.
      * by rewrite <- app_assoc.
      * destruct (json_loads out); simpl; [done|].
        by rewrite <- app_assoc.
    + by rewrite <- app_assoc.
  - unfold Localhost.is_server_available, try_except.
    destruct (Localhost.query "" "GET" w) as [[j|e] w']; [done|].
    by destruct e.
Qed.

(** ** The request path of a relative segment *)

Lemma split_no_separator c s :
  Py.has_char c s = false -> Py.split c s = [s].
Proof.
  induction s as [|a s IH]; [done|]. simpl.
  intros [Ha Hs]%orb_false_iff. rewrite Ha, (IH Hs). done.
Qed.

(** For a segment that does not start with a slash, the request path is
    ['/1.0'] followed by the components of the segment, empty and ['.']
    components dropped, joined by slashes; so it begins with ['/1.0'], and
    asking for the path again, as [get_networks] does with what LXD
    returned, gives the same path.  A segment of one plain component [s]
    gives ['/1.0/s'], the empty segment ['/1.0']. *)
Theorem query_url_relative (segment : string) :
  Py.startswith "/" segment = false ->
  let components :=
    filter (fun x => Pathlib.keep_part x = true) (Py.split "/" segment) in
  Localhost.query_url segment = Py.join "/" ("/1.0" :: components)
  /\ Py.startswith "/1.0" (Localhost.query_url segment) = true
  /\ Localhost.query_url (Localhost.query_url segment)
     = Localhost.query_url segment
  /\ (Py.has_char "/" segment = false -> Pathlib.keep_part segment = true ->
      Localhost.query_url segment = "/1.0/" +:+ segment)
  /\ (segment = EmptyString -> Localhost.query_url segment = "/1.0").
Proof.
  intros Hrel components.
  assert (Hno : Py.startswith "/1.0" segment = false).
  { destruct segment as [|c s]; [done|]. simpl in *.
    by destruct (Ascii.eqb "/" c). }
  assert (Hroot : Pathlib.splitroot segment = (EmptyString, segment)).
  { destruct segment as [|c s]; [done|]. simpl in Hrel.
    unfold Pathlib.splitroot.
    destruct c as [[] [] [] [] [] [] [] []]; try done. }
  assert (Hurl : Localhost.query_url segment
                 = Py.join "/" ("/1.0" :: components)).
  { unfold Localhost.query_url. rewrite Hno.
    unfold Pathlib.parse at 2. rewrite Hroot. simpl.
    unfold Pathlib.joinpath, Pathlib.to_str. simpl. fold components.
    by destruct components. }
  assert (Hpre : Py.startswith "/1.0" (Localhost.query_url segment) = true).
  { rewrite Hurl. simpl. by destruct components. }
  split; [done|]. split; [done|]. split; [|split].
  - unfold Localhost.query_url at 1. by rewrite Hpre.
  - intros Hone Hkeep. rewrite Hurl. unfold components.
    rewrite (split_no_separator _ _ Hone).
    by rewrite filter_cons_True, filter_nil.
  - intros ->. reflexivity.
Qed.

Lemma query_url_relative_witness :
  Localhost.query_url "networks" = "/1.0/networks"
  /\ Localhost.query_url "storage-pools//default/./volumes"
     = "/1.0/storage-pools/default/volumes".
Proof.
  split.
  - exact (proj1 (proj2 (proj2 (proj2
             (query_url_relative "networks" eq_refl)))) eq_refl eq_refl).
  - exact (proj1 (query_url_relative "storage-pools//default/./volumes"
                    eq_refl)).
Defined.

(** ** What [get_networks] keeps true, whatever LXD answers *)

Lemma key_eqb_sym a b : OrderedDict.key_eqb a b = OrderedDict.key_eqb b a.
Proof.
  destruct a, b; simpl; try done.
  - by destruct b, b0.
  - apply Z.eqb_sym.
  - apply String.eqb_sym.
Qed.

Lemma key_eqb_str k s : OrderedDict.key_eqb k (JStr s) = true -> k = JStr s.
Proof. destruct k; simpl; try done. by intros ->%String.eqb_eq. Qed.

Lemma setitem_keys k v (d : list (json * json)) :
  (OrderedDict.setitem k v d).*1 = d.*1
  \/ (OrderedDict.setitem k v d = d ++ [(k, v)]
      /\ Forall (fun e => OrderedDict.key_eqb e.1 k = false) d).
Proof.
  induction d as [|[k' v'] d IH]; simpl.
  - right. by split.
  - destruct (OrderedDict.key_eqb k' k) eqn:E; simpl.
    + by left.
    + destruct IH as [IH|[IH Hall]].
      * left. f_equal. exact IH.
      * right. rewrite IH. split; [done|]. by constructor.
Qed.

Lemma distinct_snoc ks k :
  distinct ks -> Forall (fun k' => OrderedDict.key_eqb k' k = false) ks ->
  distinct (ks ++ [k]).
Proof.
  induction ks as [|k0 ks IH]; simpl; [done|].
  intros [Hall Hd] Hk. inversion Hk as [|? ? Hk0 Hks]; subst. split.
  - apply Forall_app. split; [done|]. constructor; [|done].
    by rewrite key_eqb_sym.
  - by apply IH.
Qed.

Lemma setitem_distinct k v (d : list (json * json)) :
  distinct d.*1 -> distinct (OrderedDict.setitem k v d).*1.
Proof.
  intros Hd. destruct (setitem_keys k v d) as [E|[E Hall]]; rewrite E;
    [done|].
  rewrite fmap_app. apply distinct_snoc; [done|].
  by apply Forall_fmap.
Qed.

Lemma delitem_sub (P : json * json -> Prop) k d :
  Forall P d -> Forall P (OrderedDict.delitem k d).
Proof.
  induction 1 as [|[k' v'] d Hx Hd IH]; simpl; [done|].
  destruct (OrderedDict.key_eqb k' k); [done|]. by constructor.
Qed.

Lemma move_to_front_parts s d e :
  OrderedDict.getitem (JStr s) d = Some e ->
  distinct d.*1 ->
  e.1 = JStr s
  /\ e ∈ d
  /\ Forall (fun e' => OrderedDict.key_eqb e'.1 (JStr s) = false)
       (OrderedDict.delitem (JStr s) d)
  /\ distinct (OrderedDict.delitem (JStr s) d).*1.
Proof.
  induction d as [|[k' v'] d IH]; simpl; [done|].
  destruct (OrderedDict.key_eqb k' (JStr s)) eqn:E.
  - intros [= <-] [Hall Hd]. apply key_eqb_str in E as ->. simpl.
    split; [done|]. split; [left|]. split; [|done].
    by apply Forall_fmap in Hall.
  - intros He [Hall Hd]. destruct (IH He Hd) as (Hk & Hin & Hfresh & Hdd).
    split; [done|]. split; [by right|]. split; [by constructor|].
    simpl. split; [|done].
    apply Forall_fmap. apply delitem_sub. by apply Forall_fmap in Hall.
Qed.

Lemma getitem_setitem_other k v s d :
  OrderedDict.key_eqb k (JStr s) = false ->
  is_Some (OrderedDict.getitem (JStr s) (OrderedDict.setitem k v d)) ->
  is_Some (OrderedDict.getitem (JStr s) d).
Proof.
  intros Hk. induction d as [|[k' v'] d IH]; simpl.
  - rewrite Hk. by intros [? [=]].
  - destruct (OrderedDict.key_eqb k' k) eqn:E; simpl;
      destruct (OrderedDict.key_eqb k' (JStr s)); eauto.
Qed.

Lemma setitem_values (P : json -> Prop) k v d :
  P v -> Forall (fun e => P e.2) d ->
  Forall (fun e => P e.2) (OrderedDict.setitem k v d).
Proof.
  intros Hv. induction 1 as [|[k' v'] d Hx Hd IH]; simpl.
  - by constructor.
  - destruct (OrderedDict.key_eqb k' k); by constructor.
Qed.

(** One round of the loop keeps the keys distinct, the key ['lxdbr0']
    first and bridges as the only values. *)
Lemma add_network_invariant d info d' :
  Localhost.add_network d info = Ok d' ->
  distinct d.*1 /\ leads "lxdbr0" d /\ Forall (fun e => is_bridge e.2) d ->
  distinct d'.*1 /\ leads "lxdbr0" d' /\ Forall (fun e => is_bridge e.2) d'.
Proof.
  unfold Localhost.add_network. intros Hrun (Hd & Hl & Hb).
  destruct (Localhost.subscript info "type") as [ty|] eqn:Hty; [|done].
  destruct (Localhost.is_str ty "bridge") eqn:Hbr;
    [|by injection Hrun as <-].
  destruct (Localhost.subscript info "name") as [name|]; [|done].
  destruct (OrderedDict.hashable name); [|done]. simpl in Hrun.
  assert (Hinfo : is_bridge info) by (by exists ty).
  pose proof (setitem_distinct name info d Hd) as Hd1.
  pose proof (setitem_values is_bridge name info d Hinfo Hb) as Hb1.
  destruct (Localhost.is_str name "lxdbr0") eqn:Hlx.
  - unfold OrderedDict.move_to_front in Hrun.
    destruct (OrderedDict.getitem _ _) as [e|] eqn:He; [|done].
    injection Hrun as <-.
    destruct (move_to_front_parts _ _ _ He Hd1) as (Hk & Hin & Hfresh & Hdd).
    split; [|split].
    + simpl. split; [|done]. rewrite Hk. by apply Forall_fmap.
    + intros _. destruct e as [k v]. simpl in Hk. subst k. by eexists _, _.
    + constructor.
      * rewrite Forall_forall in Hb1. by apply Hb1.
      * by apply delitem_sub.
  - injection Hrun as <-. split; [done|]. split; [|done].
    assert (Hne : OrderedDict.key_eqb name (JStr "lxdbr0") = false).
    { destruct name; try done. }
    intros Hsome. apply (getitem_setitem_other _ _ _ _ Hne) in Hsome.
    destruct (Hl Hsome) as (v0 & rest & ->).
    rewrite key_eqb_sym in Hne.
    change (OrderedDict.setitem name info ((JStr "lxdbr0", v0) :: rest))
      with (if OrderedDict.key_eqb (JStr "lxdbr0") name
            then (JStr "lxdbr0", info) :: rest
            else (JStr "lxdbr0", v0) :: OrderedDict.setitem name info rest).
    rewrite Hne. by eexists _, _.
Qed.

(** A loop keeps what each of its rounds keeps. *)
Lemma for_fold_invariant {S A B} (I : B -> Prop) (body : B -> A -> M S B) l :
  (forall b x s b' s', I b -> body b x s = (Ok b', s') -> I b') ->
  forall acc w d w', I acc -> for_fold l acc body w = (Ok d, w') -> I d.
Proof.
  intros Hbody. induction l as [|x l IH]; intros acc w d w' Hacc; simpl.
  - unfold ret. by intros [= <- _].
  - unfold bind at 1. destruct (body acc x w) as [[b'|e] s'] eqn:Hx; [|done].
    apply IH. by eapply Hbody.
Qed.

(** Whatever LXD answers, when [get_networks] returns a mapping, no key
    is in it twice, every value is a document of type ['bridge'], and if
    the key ['lxdbr0'] is in it at all, it is the first. *)
Theorem get_networks_lxdbr0_leads `{Processes} `{JsonLib} (w w' : World)
    (d : OrderedDict.t) :
  Localhost.get_networks w = (Ok d, w') ->
  distinct d.*1 /\ leads "lxdbr0" d /\ Forall (fun e => is_bridge e.2) d.
Proof.
  unfold Localhost.get_networks, bind at 1.
  destruct (Localhost.query "networks" "GET" w) as [[networks|e] w1]; [|done].
  unfold bind at 1, lift_result at 1.
  destruct (Localhost.iterate networks) as [nets|e]; [|done].
  apply (for_fold_invariant
           (fun d => distinct d.*1 /\ leads "lxdbr0" d
                     /\ Forall (fun e => is_bridge e.2) d)).
  - intros b x s b' s' Hb. unfold bind, lift_result.
    destruct (Localhost.query_item x s) as [[info|e] s1]; [|done].
    destruct (Localhost.add_network b info) as [b1|e] eqn:Hadd; [|done].
    intros [= <- _]. by eapply add_network_invariant.
  - split; [done|]. split; [|done]. by intros [? [=]].
Qed.

Lemma get_networks_lxdbr0_leads_witness :
  (@Localhost.get_networks Sample.network_machine Sample.network_decoder
     Sample.empty_world).1
  = Ok [(JStr "lxdbr0", Sample.network_json "lxdbr0" "bridge");
        (JStr "br1", Sample.network_json "br1" "bridge")]
  /\ leads "lxdbr0" [(JStr "lxdbr0", Sample.network_json "lxdbr0" "bridge");
                     (JStr "br1", Sample.network_json "br1" "bridge")].
Proof.
  split; [reflexivity|].
  exact (proj1 (proj2
    (@get_networks_lxdbr0_leads Sample.network_machine Sample.network_decoder
       Sample.empty_world _ _ eq_refl))).
Defined.

Lemma get_networks_front_witness :
  (@Localhost.get_networks Sample.network_machine Sample.network_decoder
     Sample.empty_world).1
  = Ok (front "lxdbr0"
          [("br1", Sample.network_json "br1" "bridge");
           ("lxdbr0", Sample.network_json "lxdbr0" "bridge")]).
Proof.
  pose (infos := [Sample.network_json "eth0" "physical";
                  Sample.network_json "br1" "bridge";
                  Sample.network_json "lxdbr0" "bridge"]).
  assert (Hdocs : Forall network_doc infos).
  { constructor; [|constructor; [|constructor; [|constructor]]];
      (eexists; split; [reflexivity|]); intros Hb;
      try discriminate Hb; eexists; reflexivity. }
  assert (Hnd : NoDup (bridge_entries infos).*1).
  { apply (bool_decide_unpack _). reflexivity. }
  pose (w1 := (@Localhost.query Sample.network_machine Sample.network_decoder
                 "networks" "GET" Sample.empty_world).2).
  pose (w' := (@map_m World json json
                 (@Localhost.query_item Sample.network_machine
                    Sample.network_decoder)
                 [JStr "/1.0/networks/eth0"; JStr "/1.0/networks/br1";
                  JStr "/1.0/networks/lxdbr0"] w1).2).
  rewrite (@get_networks_front Sample.network_machine Sample.network_decoder
             Sample.empty_world
             (JList [JStr "/1.0/networks/eth0"; JStr "/1.0/networks/br1";
                     JStr "/1.0/networks/lxdbr0"])
             w1
             [JStr "/1.0/networks/eth0"; JStr "/1.0/networks/br1";
              JStr "/1.0/networks/lxdbr0"]
             infos w' eq_refl eq_refl eq_refl Hdocs Hnd).
  reflexivity.
Defined.

Lemma get_storage_pools_front_witness :
  (@Localhost.get_storage_pools Sample.machine Sample.decoder
     Sample.empty_world).1
  = Ok (front "default"
          [("zfs", JDict [("name", JStr "zfs")]);
           ("default", JDict [("name", JStr "default.bak")])]).
Proof.
  pose (ps := ["/1.0/storage-pools/zfs"; "/1.0/storage-pools/default.bak"]).
  pose (infos := [JDict [("name", JStr "zfs")];
                  JDict [("name", JStr "default.bak")]]).
  assert (Hnd : NoDup (pool_entries (zip ps infos)).*1).
  { apply (bool_decide_unpack _). reflexivity. }
  pose (w1 := (@Localhost.query Sample.machine Sample.decoder
                 "storage-pools" "GET" Sample.empty_world).2).
  pose (w' := (@map_m World string json
                 (fun p => @Localhost.query Sample.machine Sample.decoder
                             p "GET") ps w1).2).
  rewrite (@get_storage_pools_front Sample.machine Sample.decoder
             Sample.empty_world (JList (JStr <$> ps)) w1 ps infos w'
             eq_refl eq_refl eq_refl Hnd).
  reflexivity.
Defined.

(** ** [VSphere.login] *)

Lemma logins_app h h' : logins (h ++ h') = (logins h + logins h')%nat.
Proof.
  unfold logins.
  by rewrite List.filter_app, length_app.
Qed.

(** [login] does nothing on an authenticated provider.  Otherwise it
    looks the credential up (a failure there raises and changes nothing),
    builds the client from the credential and the stored endpoint, and logs
    in once: on success the provider is marked authenticated, on failure
    the exception passes through and the provider stays unauthenticated,
    with the client kept.  After a login that returned, the provider is
    authenticated and a further login changes nothing. *)
Theorem login_is_idempotent `{Juju} `{VSphereApi} (s : VSphere.St) :
  (authenticated (VSphere.base s.1) = true -> VSphere.login s = (Ok tt, s))
  /\ (authenticated (VSphere.base s.1) = false ->
      match get_credential (cloud (VSphere.base s.1))
              (cloud_type (VSphere.base s.1))
              (credential (VSphere.base s.1)) with
      | Raise e => VSphere.login s = (Raise e, s)
      | Ok cred =>
          let c := mkClient cred (endpoint (VSphere.base s.1)) in
          let w' := record_event (ClientLogin c) s.2 in
          let with_client := set_client c (VSphere.base s.1) in
          match client_login (history s.2) c with
          | Ok _ =>
              VSphere.login s
              = (Ok tt,
                 (VSphere.mk (set_authenticated true with_client)
                    (VSphere._datacenters s.1), w'))
          | Raise e =>
              VSphere.login s
              = (Raise e,
                 (VSphere.mk with_client (VSphere._datacenters s.1), w'))
          end
      end)
  /\ (forall s1,
        VSphere.login s = (Ok tt, s1) ->
        authenticated (VSphere.base s1.1) = true
        /\ VSphere.login s1 = (Ok tt, s1)
        /\ (logins (history s1.2) <= S (logins (history s.2)))%nat).
Proof.
  destruct s as [me w].
  assert (Hdone : forall s0 : VSphere.St,
            authenticated (VSphere.base s0.1) = true ->
            VSphere.login s0 = (Ok tt, s0)).
  { intros [me0 w0] Ha. unfold VSphere.login, bind, VSphere.self. simpl in *.
    by rewrite Ha. }
  split; [apply Hdone|].
  assert (Hrun : authenticated (VSphere.base me) = false ->
    match get_credential (cloud (VSphere.base me))
            (cloud_type (VSphere.base me)) (credential (VSphere.base me)) with
    | Raise e => VSphere.login (me, w) = (Raise e, (me, w))
    | Ok cred =>
        let c := mkClient cred (endpoint (VSphere.base me)) in
        let w' := record_event (ClientLogin c) w in
        let with_client := set_client c (VSphere.base me) in
        match client_login (history w) c with
        | Ok _ =>
            VSphere.login (me, w)
            = (Ok tt,
               (VSphere.mk (set_authenticated true with_client)
                  (VSphere._datacenters me), w'))
        | Raise e =>
            VSphere.login (me, w)
            = (Raise e, (VSphere.mk with_client (VSphere._datacenters me), w'))
        end
    end).
  { intros Ha.
    unfold VSphere.login, bind, VSphere.self, lift_result, try_except,
      VSphere.update_base, VSphere.run_client, modify, ret, raise. simpl.
    rewrite Ha. destruct (get_credential _ _ _) as [cred|e]; [|done]. simpl.
    destruct (client_login _ _) as [[]|e]; simpl; [done|].
    by destruct e. }
  split; [exact Hrun|].
  intros s1 Hok. simpl in *.
  destruct (authenticated (VSphere.base me)) eqn:Ha.
  - rewrite (Hdone (me, w) Ha) in Hok. injection Hok as <-.
    split; [done|]. split; [by apply Hdone|]. simpl. lia.
  - specialize (Hrun eq_refl). rewrite Hok in Hrun.
    destruct (get_credential _ _ _) as [cred|e]; [|done]. simpl in Hrun.
    destruct (client_login _ _) as [[]|e]; [|done].
    injection Hrun as ->. simpl. split; [done|]. split; [by apply Hdone|].
    rewrite logins_app. change (logins [ClientLogin _]) with 1%nat. lia.
Qed.

(** ** [VSphere.cloud_config] *)

Lemma set_region_spec n ep rs :
  (NoDup rs.*1 -> NoDup (VSphere.set_region n ep rs).*1)
  /\ (forall x, x ∈ (VSphere.set_region n ep rs).*1 <-> x = n \/ x ∈ rs.*1)
  /\ (Forall (fun r => r.2 = ep) rs ->
      Forall (fun r => r.2 = ep) (VSphere.set_region n ep rs)).
Proof.
  induction rs as [|[m e] rs (IHnd & IHin & IHv)]; simpl.
  - split; [|split].
    + intros _. apply NoDup_singleton.
    + intros x. rewrite list_elem_of_singleton. set_solver.
    + by constructor.
  - destruct (String.eqb_spec m n) as [->|Hne]; simpl.
    + split; [done|]. split.
      * intros x. set_solver.
      * intros Hall. inversion Hall; subst. by constructor.
    + split; [|split].
      * intros [Hm Hnd]%NoDup_cons. apply NoDup_cons. split; [|by apply IHnd].
        rewrite IHin. intros [->|Hin]; done.
      * intros x. rewrite !elem_of_cons, IHin. naive_solver.
      * intros Hall. inversion Hall; subst. constructor; [done|by apply IHv].
Qed.

Lemma regions_of_datacenters ep (dcs : list Datacenter) :
  let regs := fold_left (fun rs dc => VSphere.set_region (dc_name dc) ep rs)
                dcs [] in
  NoDup regs.*1
  /\ (forall x, x ∈ regs.*1 <-> x ∈ dc_name <$> dcs)
  /\ Forall (fun r => r.2 = ep) regs.
Proof.
  induction dcs as [|dc dcs IH] using rev_ind; simpl.
  - split; [apply NoDup_nil_2|]. split; [done|by constructor].
  - rewrite fold_left_app. simpl.
    destruct IH as (IHnd & IHin & IHv).
    destruct (set_region_spec (dc_name dc) ep
                (fold_left (fun rs dc0 =>
                              VSphere.set_region (dc_name dc0) ep rs) dcs []))
      as (Hnd & Hin & Hv).
    split; [by apply Hnd|]. split; [|by apply Hv].
    intros x. rewrite Hin, IHin, fmap_app, elem_of_app. simpl.
    rewrite list_elem_of_singleton. naive_solver.
Qed.

(** [login] changes neither the endpoint nor the auth type. *)
Lemma login_keeps_endpoint `{Juju} `{VSphereApi} (s : VSphere.St) :
  endpoint (VSphere.base (VSphere.login s).2.1) = endpoint (VSphere.base s.1)
  /\ auth_type (VSphere.base (VSphere.login s).2.1)
     = auth_type (VSphere.base s.1).
Proof.
  destruct s as [me w].
  unfold VSphere.login, bind, VSphere.self, lift_result, try_except,
    VSphere.update_base, VSphere.run_client, modify, ret, raise. simpl.
  destruct (authenticated (VSphere.base me)); [done|].
  destruct (get_credential _ _ _) as [cred|e]; [|done]. simpl.
  destruct (client_login _ _) as [[]|e]; simpl; [done|]. by destruct e.
Qed.

(** [get_datacenters] changes neither the endpoint nor the auth type. *)
Lemma get_datacenters_keeps_endpoint `{Juju} `{VSphereApi}
    (s s1 : VSphere.St) r :
  VSphere.get_datacenters s = (r, s1) ->
  endpoint (VSphere.base s1.1) = endpoint (VSphere.base s.1)
  /\ auth_type (VSphere.base s1.1) = auth_type (VSphere.base s.1).
Proof.
  unfold VSphere.get_datacenters, bind at 1, VSphere.self. simpl.
  destruct (VSphere._datacenters s.1); [by intros [= _ <-]|].
  assert (Hpre : exists r0 s0,
            (if negb (authenticated (VSphere.base s.1))
             then VSphere.login else ret tt) s = (r0, s0)
            /\ endpoint (VSphere.base s0.1) = endpoint (VSphere.base s.1)
            /\ auth_type (VSphere.base s0.1) = auth_type (VSphere.base s.1)).
  { destruct (negb (authenticated (VSphere.base s.1))).
    - pose proof (login_keeps_endpoint s) as [He Ha].
      destruct (VSphere.login s) as [r0 s0]. by exists r0, s0.
    - by exists (Ok tt), s. }
  destruct Hpre as (r0 & s0 & Hrun & He & Ha).
  unfold bind at 1. rewrite Hrun. destruct r0 as [[]|e];
    [|by intros [= _ <-]].
  unfold bind, VSphere.run_client, VSphere.set_datacenters, modify, ret.
  destruct (client (VSphere.base s0.1)); [|by intros [= _ <-]].
  destruct (client_get_datacenters _ _); by intros [= _ <-].
Qed.

(** When [cloud_config] returns, the configuration has the type
    ['vsphere'], the provider's auth type and endpoint, and one region for
    each name among the datacenters, each name once, every region with the
    provider's endpoint; the provider's [regions] are these names in
    ascending order; the datacenters are cached, so that asking again
    returns the same configuration and changes nothing. *)
Theorem cloud_config_regions `{Juju} `{VSphereApi} (s s1 : VSphere.St)
    (cfg : VSphere.Config) :
  VSphere.cloud_config s = (Ok cfg, s1) ->
  exists dcs,
    VSphere._datacenters s1.1 = Some dcs
    /\ VSphere.config_type cfg = "vsphere"
    /\ VSphere.config_auth_types cfg = [auth_type (VSphere.base s.1)]
    /\ VSphere.config_endpoint cfg = endpoint (VSphere.base s.1)
    /\ NoDup (VSphere.config_regions cfg).*1
    /\ (forall n, n ∈ (VSphere.config_regions cfg).*1 <-> n ∈ dc_name <$> dcs)
    /\ Forall (fun r => r.2 = endpoint (VSphere.base s.1))
         (VSphere.config_regions cfg)
    /\ Sorted String.le (regions (VSphere.base s1.1))
    /\ regions (VSphere.base s1.1) ≡ₚ (VSphere.config_regions cfg).*1
    /\ VSphere.cloud_config s1 = (Ok cfg, s1).
Proof.
  unfold VSphere.cloud_config at 1, bind at 1, VSphere.self at 1. simpl.
  unfold bind at 1.
  destruct (VSphere.get_datacenters s) as [[dcs|e] s0] eqn:Hget; [|done].
  destruct (get_datacenters_keeps_endpoint _ _ _ Hget) as [Hep Hat].
  destruct (get_datacenters_caches _ _ _ Hget) as (Hcache & _ & _).
  unfold bind, VSphere.update_base, modify, ret.
  intros [= <- <-]. simpl. exists dcs.
  destruct (regions_of_datacenters (endpoint (VSphere.base s.1)) dcs)
    as (Hnd & Hin & Hv).
  destruct (sorted_spec
              (fold_left (fun rs dc => VSphere.set_region (dc_name dc)
                                         (endpoint (VSphere.base s.1)) rs)
                 dcs []).*1) as [Hsorted Hperm].
  repeat (split; [done|]).
  unfold VSphere.cloud_config, bind at 1, VSphere.self at 1. simpl.
  unfold bind at 1.
  rewrite (get_datacenters_cached (_, _) dcs) by done.
  unfold bind, VSphere.update_base, modify, ret. simpl.
  rewrite Hep, Hat. reflexivity.
Qed.

Lemma cloud_config_regions_witness :
  let s := (VSphere.mk
              (set_endpoint (Some "vcenter.example.com")
                 (set_credential "admin" (VSphere.base VSphere.init)))
              None, Sample.empty_world) in
  exists s1,
    @VSphere.cloud_config Sample.juju Sample.vcenter s
    = (Ok (VSphere.mkConfig "vsphere" [Some "userpass"]
             (Some "vcenter.example.com")
             [("dc0", Some "vcenter.example.com");
              ("dc1", Some "vcenter.example.com")]), s1)
    /\ regions (VSphere.base s1.1) = ["dc0"; "dc1"]
    /\ @VSphere.cloud_config Sample.juju Sample.vcenter s1
       = (Ok (VSphere.mkConfig "vsphere" [Some "userpass"]
                (Some "vcenter.example.com")
                [("dc0", Some "vcenter.example.com");
                 ("dc1", Some "vcenter.example.com")]), s1).
Proof.
  intros s.
  exists (@VSphere.cloud_config Sample.juju Sample.vcenter s).2.
  split; [reflexivity|]. split; [reflexivity|].
  destruct (@cloud_config_regions Sample.juju Sample.vcenter s _ _ eq_refl)
    as (dcs & _ & _ & _ & _ & _ & _ & _ & _ & _ & Hagain).
  exact Hagain.
Defined.

(** ** What the MAAS endpoint validator leaves alone *)

Lemma store_keeps_rest k v frm :
  (key <$> fields (store k v frm)) = (key <$> fields frm)
  /\ (error <$> fields (store k v frm)) = (error <$> fields frm)
  /\ (label <$> fields (store k v frm)) = (label <$> fields frm)
  /\ length (fields (store k v frm)) = length (fields frm).
Proof.
  destruct frm as [l]. unfold store, update_field, fields. simpl.
  induction l as [|w l (IHk & IHe & IHl & IHn)]; [done|]. simpl.
  destruct (String.eqb k (key w)); simpl; [done|].
  repeat split; by f_equal.
Qed.

(** The endpoint validator changes the form only when it succeeds, and
    then only the value of the endpoint field: on a failure and on an
    exception the form is what it was, and a success either leaves it or
    stores one new value in the field ['endpoint'], keys, labels and error
    texts untouched.  A failure always comes with one of the two format
    messages. *)
Theorem endpoint_validator_frame `{HostSyntax} (frm frm' : Form)
    (r : result (bool * option string)) :
  MAAS._has_correct_endpoint frm = (r, frm') ->
  (frm' = frm
   \/ (r = Ok (true, None) /\ exists v, frm' = store "endpoint" v frm))
  /\ (key <$> fields frm') = (key <$> fields frm)
  /\ (error <$> fields frm') = (error <$> fields frm)
  /\ (forall msg, r = Ok (false, msg) ->
        frm' = frm
        /\ (msg = Some MAAS.endpoint_netloc_message
            \/ msg = Some MAAS.endpoint_format_message))
  /\ (forall e, r = Raise e -> frm' = frm).
Proof.
  intros Hrun.
  assert (Hcases :
    (frm' = frm /\ (forall msg, r = Ok (false, msg) ->
                      msg = Some MAAS.endpoint_netloc_message
                      \/ msg = Some MAAS.endpoint_format_message))
    \/ (r = Ok (true, None) /\ exists v, frm' = store "endpoint" v frm)).
  { revert Hrun.
    unfold MAAS._has_correct_endpoint, bind at 1, get.
    destruct (field frm "endpoint") as [fld|]; [|by intros [= <- <-]; left].
    destruct (value fld) as [e|]; [|by intros [= <- <-]; left].
    unfold MAAS.store_joined, try_except, bind, lift_result, modify, ret,
      raise.
    destruct (Py.startswith "http" e).
    - destruct (Urllib.urlparse e "") as [url|x]; [|by intros [= <- <-]; left].
      destruct (negb (Urllib.nonempty (Urllib.netloc url))).
      + intros [= <- <-]. left. split; [done|]. intros msg [= <-]. by left.
      + destruct (negb (Py.contains "MAAS" (Urllib.path url))).
        * destruct (Urllib.urljoin _ _) as [v|x]; intros [= <- <-].
          -- right. split; [done|]. by exists v.
          -- by left.
        * intros [= <- <-]. by left.
    - destruct (is_valid_hostname e).
      + destruct (Urllib.urljoin _ _) as [v|x]; intros [= <- <-].
        * right. split; [done|]. by exists v.
        * by left.
      + destruct (MAAS.ip_and_port e) as [ip port].
        destruct (ip_address ip).
        * destruct (Urllib.urljoin _ _) as [v|x].
          -- intros [= <- <-]. right. split; [done|]. by exists v.
          -- destruct x; intros [= <- <-]; left; split; try done.
             intros m [= <-]. by right.
        * intros [= <- <-]. left. split; [done|]. intros msg [= <-].
          by right. }
  destruct Hcases as [[-> Hmsg]|[-> [v ->]]].
  - split; [by left|]. repeat split; auto.
  - destruct (store_keeps_rest "endpoint" v frm) as (Hk & He & _).
    split; [right; split; [done|by exists v]|]. by repeat split.
Qed.

Lemma endpoint_validator_frame_witness :
  let frm := Sample.maas_form (Some "not an ip or host!!") (Some "a:b:c") in
  @MAAS._has_correct_endpoint Sample.hosts frm
  = (Ok (false, Some MAAS.endpoint_format_message), frm)
  /\ (key <$> fields frm) = ["endpoint"; "maas-oauth"].
Proof.
  intros frm. split; [reflexivity|].
  exact (proj1 (proj2 (@endpoint_validator_frame Sample.hosts frm frm _
                         eq_refl))).
Defined.

(** ** From the MAAS form to the cloud configuration *)

(** With a valid hostname [h] in the endpoint field (not starting with
    ['http'], free of ['/'], ['?'], ['#'] and brackets) and an API key of
    three colon-separated segments, [is_valid] answers [True], [save_form]
    then returns, and the ['endpoint'] of [cloud_config] is the rewritten
    address ['http://h:5240/MAAS'], not the text that was typed; the API
    key is stored under [maas_oauth], the key with its hyphen replaced. *)
Theorem maas_form_reaches_cloud_config `{HostSyntax} (h k : string) :
  Py.startswith "http" h = false ->
  is_valid_hostname h = true ->
  plain h = true ->
  h <> EmptyString ->
  length (Py.split ":" k) = 3%nat ->
  let p := set_form (Sample.maas_form (Some h) (Some k)) MAAS.init in
  exists p' o',
    is_valid p = (Ok true, p')
    /\ save_form (mkObj p' ∅) = (Ok tt, o')
    /\ MAAS.cloud_config (obj_base o')
       = JDict [("type", JStr "maas");
                ("auth-types", JList [JStr "oauth1"]);
                ("endpoint", JStr ("http://" +:+ h +:+ ":5240/MAAS"))]
    /\ getattr "maas_oauth" o' = Some (Some k).
Proof.
  intros Hs Hv Hp Hne Hk p.
  assert (Hurl : Urllib.urljoin ("http://" +:+ h +:+ ":5240") "MAAS"
                 = Ok ("http://" +:+ h +:+ ":5240/MAAS")).
  { rewrite (urljoin_http (h +:+ ":5240")).
    - by rewrite append_assoc.
    - by rewrite plain_app, Hp.
    - by destruct h. }
  assert (Hth : Py.truthy (Some h) = true) by by destruct h.
  assert (Htk : Py.truthy (Some k) = true) by by destruct k.
  assert (Hform : Sample.maas_form (Some h) (Some k) = mkForm
    [mkField "api endpoint (http://example.com:5240/MAAS)"
          (mkWidget StringEditor (Some h)) "endpoint" false
          (Some EmptyString) true (Some MAAS_has_correct_endpoint);
        mkField "api key"
          (mkWidget StringEditor (Some k)) "maas-oauth" true
          (Some EmptyString) true (Some MAAS_has_correct_api_key)]) by reflexivity.
  assert (Hstep0 : validate MAAS.call 0 (Sample.maas_form (Some h) (Some k))
     = (Ok true, store "endpoint" ("http://" +:+ h +:+ ":5240/MAAS") (Sample.maas_form (Some h) (Some k)))).
  { rewrite Hform. unfold validate, bind, modify, get, ret. simpl.
    unfold value. simpl.
    change (match h with EmptyString => false | String _ _ => true end)
      with (Py.truthy (Some h)).
    rewrite Hth. simpl.
    rewrite (endpoint_hostname _ h); [|by eexists|done|done].
    rewrite Hurl. reflexivity. }
  assert (Hstep1 : forall v,
     validate MAAS.call 1 (store "endpoint" v (Sample.maas_form (Some h) (Some k)))
     = (Ok true, store "endpoint" v (Sample.maas_form (Some h) (Some k)))).
  { intros v. rewrite Hform. unfold validate, bind, modify, get, ret. simpl.
    unfold value. simpl.
    change (match k with EmptyString => false | String _ _ => true end)
      with (Py.truthy (Some k)).
    rewrite Htk. simpl.
    erewrite api_key_outcome by reflexivity. simpl. rewrite Hk. reflexivity. }
  assert (Hvalid : is_valid p = (Ok true, set_form (store "endpoint" ("http://" +:+ h +:+ ":5240/MAAS") (Sample.maas_form (Some h) (Some k))) p)).
  { unfold is_valid, bind at 1, get.
    change (form p) with (Some (Sample.maas_form (Some h) (Some k))).
    cbv iota beta.
    change (call_fields (Sample.maas_form (Some h) (Some k)))
      with (Ok (fields (Sample.maas_form (Some h) (Some k)))).
    unfold bind at 1, lift_result at 1. cbv iota beta.
    change (length (fields (Sample.maas_form (Some h) (Some k)))) with 2%nat.
    unfold bind at 1, zoom. simpl seq. simpl fold_left.
    change (default _ (form p)) with (Sample.maas_form (Some h) (Some k)).
    unfold bind at 1. unfold bind at 1. unfold ret at 1. unfold bind at 1.
    rewrite Hstep0. unfold ret at 1. unfold bind at 1. rewrite Hstep1.
    reflexivity. }
  eexists _, _. split; [exact Hvalid|].
  split.
  { unfold save_form, bind at 1, get. cbn [obj_attrs obj_base].
    rewrite lookup_empty.
    change (form (set_form ?f _)) with (Some f).
    cbv iota beta.
    change (call_fields ?f) with (Ok (fields f)).
    unfold bind at 1, lift_result at 1. cbv iota beta.
    rewrite save_form_loop; [reflexivity|].
    rewrite Hform. by repeat constructor. }
  split.
  - rewrite Hform. reflexivity.
  - rewrite Hform. reflexivity.
Qed.

Lemma maas_form_reaches_cloud_config_witness :
  exists p' o',
    @is_valid Sample.hosts
      (set_form (Sample.maas_form (Some "maas.lan") (Some "a:b:c")) MAAS.init)
    = (Ok true, p')
    /\ save_form (mkObj p' ∅) = (Ok tt, o')
    /\ endpoint (obj_base o') = Some "http://maas.lan:5240/MAAS".
Proof.
  destruct (@maas_form_reaches_cloud_config Sample.hosts "maas.lan" "a:b:c" eq_refl eq_refl
              eq_refl ltac:(discriminate) eq_refl)
    as (p' & o' & Hv & Hs & Hc & _).
  exists p', o'. split; [exact Hv|]. split; [exact Hs|].
  revert Hc. unfold MAAS.cloud_config.
  destruct (endpoint (obj_base o')) as [e|]; [|discriminate].
  intros [= ->]. reflexivity.
Defined.


(** ** What [AWS.configure_tools] leaves behind *)

(** Whatever the processes answer, [configure_tools] leaves [app.env]
    alone.  When the credential lookup raises, the exception passes through
    and nothing is run or logged.  Otherwise the profile-list check is
    started, and after it at most the profile write fed with the
    credential's keys, and nothing else.  A normal return writes no log
    line; the only line ever logged is the one for a failed write, and then
    the [CalledProcessError] of that write, with a non-zero status, is
    raised. *)
Theorem configure_tools_footprint `{Processes} `{Juju} (self : BaseProvider)
    (w : World) :
  let '(r, w') := AWS.configure_tools self w in
  environ w' = environ w
  /\ (match get_credential (cloud self) (cloud_type self) (credential self) with
      | Raise e => r = Raise e /\ w' = w
      | Ok cred =>
          history w' = history w ++ [Ran (AWS.list_cmd self) None]
          \/ history w' = history w ++ [Ran (AWS.list_cmd self) None;
                                        Ran (AWS.write_cmd self)
                                          (Some (AWS.write_input cred))]
      end)
  /\ (r = Ok tt -> log w' = log w)
  /\ (log w' = log w
      \/ exists rc out err,
           r = Raise (CalledProcessError rc (AWS.write_cmd self) out err)
           /\ rc <> 0
           /\ log w' = log w ++ [LogError ("Failed to configure AWS CLI profile: "
                                          +:+ err)]).
Proof.
  unfold AWS.configure_tools, bind, lift_result, try_except, arun, ret, raise,
    write_log, modify, record_event.
  destruct (get_credential _ _ _) as [cred|e]; [|by auto 10].
  destruct (run_process (history w) _ None) as [rc out err|msg]; simpl;
    [|by auto 10].
  destruct (rc =? 0); simpl; [by auto 10|].
  destruct (run_process _ _ (Some _)) as [rc' out' err'|msg']; simpl.
  - destruct (rc' =? 0) eqn:E; simpl.
    + rewrite <- app_assoc. by auto 10.
    + rewrite <- app_assoc. split; [done|]. split; [by right|].
      split; [done|]. right. exists rc', out', err'.
      split; [done|]. split; [|done]. intros ->. done.
  - rewrite <- app_assoc. by auto 10.
Qed.

(** ** Loading one cloud after another *)

(** Loading a known cloud overwrites all that an earlier [load] set,
    whether that one succeeded or raised: the provider is the same as if
    only the second cloud had been loaded.  In particular loading the same
    cloud twice changes nothing more. *)
Theorem load_last_wins `{Juju} (a b : string) (p : BaseProvider) :
  is_Some (get_cloud b) ->
  load b (load a p).2 = load b p.
Proof.
  intros [eb Hb]. unfold load. rewrite Hb.
  destruct (get_cloud a) as [ea|]; [|done].
  reflexivity.
Qed.

Lemma load_last_wins_witness :
  is_Some (@get_cloud Sample.juju "aws")
  /\ @load Sample.juju "aws"
       (@load Sample.juju "aws" (set_cloud "gone" BaseProvider_init)).2
     = @load Sample.juju "aws" (set_cloud "gone" BaseProvider_init).
Proof.
  split; [by eexists|].
  apply (@load_last_wins Sample.juju "aws" "aws"). by eexists.
Defined.
